(** * Server ping tester: the probing and aggregation pipeline of [script.py]

    A shallow embedding of the pure core of the script (output parsing,
    per-host result construction, batch ordering) together with the parts of
    the Python runtime it relies on: [str] methods, [int()] and [float()]
    literal parsing, true division, [statistics.mean] and [list.sort].

    Text is modelled by [string]; each [ascii] stands for the code point of
    the same number, so the model covers text whose code points are below
    256.  Numbers of type [float] are IEEE-754 binary64 values, modelled by
    [spec_float] with 53 bits of precision. *)

From Stdlib Require Import ZArith NArith List String Ascii Bool Lia.
From Stdlib Require Import DecimalString Permutation Sorted SpecFloat.
From Stdlib Require DecimalPos.
Import ListNotations.

Open Scope string_scope.

(** ** Exceptions and fallible computations *)

Inductive exn : Type :=
| ValueError (msg : string)
| IndexError (msg : string)
| OverflowError (msg : string)
| ZeroDivisionError (msg : string)
| TimeoutExpired (msg : string)
| OtherError (msg : string).

(** [str(e)] *)
Definition exn_str (e : exn) : string :=
  match e with
  | ValueError msg | IndexError msg | OverflowError msg
  | ZeroDivisionError msg | TimeoutExpired msg | OtherError msg => msg
  end.

Inductive result (A : Type) : Type :=
| Ok (a : A)
| Raise (e : exn).

Arguments Ok {A} a.
Arguments Raise {A} e.

Definition bind {A B : Type} (c : result A) (k : A -> result B) : result B :=
  match c with
  | Ok a => k a
  | Raise e => Raise e
  end.

Notation "x <- c ;; k" := (bind c (fun x => k))
  (at level 61, c at next level, right associativity).

(** ** Python [str] operations *)

Module PyStr.

Definition code (c : ascii) : N := N_of_ascii c.

Definition in_range (lo hi : N) (c : ascii) : bool :=
  (N.leb lo (code c) && N.leb (code c) hi)%bool.

(** [str.isspace] on a single character: the separators of [str.split()]. *)
Definition is_space (c : ascii) : bool :=
  (in_range 9 13 c || in_range 28 32 c
   || N.eqb (code c) 133 || N.eqb (code c) 160)%bool.

(** The C locale's [isspace], used once a literal has been made ASCII. *)
Definition is_c_space (c : ascii) : bool :=
  (in_range 9 13 c || N.eqb (code c) 32)%bool.

Definition is_digit (c : ascii) : bool := in_range 48 57 c.

Definition digit_val (c : ascii) : Z := Z.of_N (code c) - 48.

Definition lower_char (c : ascii) : ascii :=
  if (in_range 65 90 c
      || (in_range 192 222 c && negb (N.eqb (code c) 215)))%bool
  then ascii_of_N (code c + 32)
  else c.

(** [s.lower()] *)
Fixpoint lower (s : string) : string :=
  match s with
  | EmptyString => EmptyString
  | String c s' => String (lower_char c) (lower s')
  end.

(** [s.removeprefix(p)] when [s.startswith(p)], nothing otherwise. *)
Fixpoint strip_prefix (p s : string) : option string :=
  match p, s with
  | EmptyString, _ => Some s
  | String a p', String b s' =>
      if Ascii.eqb a b then strip_prefix p' s' else None
  | String _ _, EmptyString => None
  end.

(** [s.partition(sep)] at the leftmost occurrence of [sep]: the text before
    it and the text after it. *)
Fixpoint find_first (sep s : string) : option (string * string) :=
  match strip_prefix sep s with
  | Some rest => Some (EmptyString, rest)
  | None =>
      match s with
      | EmptyString => None
      | String c s' =>
          match find_first sep s' with
          | Some (before, after) => Some (String c before, after)
          | None => None
          end
      end
  end.

(** [sub in s] *)
Definition contains (sub s : string) : bool :=
  match find_first sub s with
  | Some _ => true
  | None => false
  end.

Fixpoint split_fuel (fuel : nat) (sep s : string) : list string :=
  match fuel with
  | O => [s]
  | S fuel' =>
      match find_first sep s with
      | None => [s]
      | Some (before, after) => before :: split_fuel fuel' sep after
      end
  end.

(** [s.split(sep)] for a non-empty separator: every occurrence removes at
    least one character, so [length s] rounds are enough. *)
Definition split (sep s : string) : list string :=
  split_fuel (String.length s) sep s.

(** [s.split()]: maximal runs of non-space characters. *)
Fixpoint split_ws (s : string) : list string :=
  match s with
  | EmptyString => []
  | String c s' =>
      if is_space c then split_ws s'
      else
        match s' with
        | EmptyString => [String c EmptyString]
        | String c' _ =>
            if is_space c' then String c EmptyString :: split_ws s'
            else
              match split_ws s' with
              | tok :: toks => String c tok :: toks
              | [] => [String c EmptyString]
              end
        end
  end.

Fixpoint replace_fuel (fuel : nat) (old new s : string) : string :=
  match fuel with
  | O => s
  | S fuel' =>
      match find_first old s with
      | None => s
      | Some (before, after) =>
          before ++ new ++ replace_fuel fuel' old new after
      end
  end.

(** [s.replace(old, new)] for a non-empty [old]. *)
Definition replace (old new s : string) : string :=
  replace_fuel (String.length s) old new s.

(** [xs[i]] *)
Definition index {A : Type} (xs : list A) (i : nat) : result A :=
  match nth_error xs i with
  | Some x => Ok x
  | None => Raise (IndexError "list index out of range")
  end.

(** [str(n)] for an [int] *)
Definition str_of_int (n : Z) : string :=
  NilZero.string_of_int (Z.to_int n).

Definition hex_digit (n : N) : ascii :=
  if N.ltb n 10 then ascii_of_N (48 + n) else ascii_of_N (87 + n).

(** [c.isprintable()] *)
Definition is_printable (c : ascii) : bool :=
  (in_range 32 126 c || (in_range 161 255 c && negb (N.eqb (code c) 173)))%bool.

Definition backslash : ascii := ascii_of_N 92.
Definition squote : ascii := ascii_of_N 39.
Definition dquote : ascii := ascii_of_N 34.

Definition repr_char (quote c : ascii) : string :=
  if (Ascii.eqb c quote || Ascii.eqb c backslash)%bool
  then String backslash (String c EmptyString)
  else if N.eqb (code c) 9 then String backslash "t"
  else if N.eqb (code c) 10 then String backslash "n"
  else if N.eqb (code c) 13 then String backslash "r"
  else if is_printable c then String c EmptyString
  else String backslash
         (String "x" (String (hex_digit (N.div (code c) 16))
                        (String (hex_digit (N.modulo (code c) 16)) EmptyString))).

Fixpoint repr_body (quote : ascii) (s : string) : string :=
  match s with
  | EmptyString => EmptyString
  | String c s' => repr_char quote c ++ repr_body quote s'
  end.

Fixpoint has_char (c : ascii) (s : string) : bool :=
  match s with
  | EmptyString => false
  | String a s' => (Ascii.eqb a c || has_char c s')%bool
  end.

(** [repr(s)] *)
Definition repr (s : string) : string :=
  let quote :=
    if (has_char squote s && negb (has_char dquote s))%bool
    then dquote else squote in
  String quote (repr_body quote s ++ String quote EmptyString).

(** The first [n] characters of [s] (the C format precision [%.nR]). *)
Fixpoint take (n : nat) (s : string) : string :=
  match n, s with
  | S n', String c s' => String c (take n' s')
  | _, _ => EmptyString
  end.

Fixpoint drop_while (f : ascii -> bool) (s : string) : string :=
  match s with
  | EmptyString => EmptyString
  | String c s' => if f c then drop_while f s' else s
  end.

End PyStr.

(** ** Python numbers: [int], [float] and their literals *)

Module PyNum.
Import PyStr.
Local Open Scope Z_scope.

(** binary64 *)
Definition prec : Z := 53.
Definition emax : Z := 1024.

Definition float : Type := spec_float.

Definition pos_inf : float := S754_infinity false.

(** The quotient [p / q] of two positive integers, rounded to the nearest
    binary64 value (ties to even); an infinity when it is out of range. *)
Definition round_ratio (neg : bool) (p q : positive) : float :=
  let '(m, e, l) := SFdiv_core_binary prec emax (Zpos p) 0 (Zpos q) 0 in
  binary_round_aux prec emax neg m e l.

Definition is_finite (x : float) : bool :=
  match x with
  | S754_zero _ | S754_finite _ _ _ => true
  | S754_infinity _ | S754_nan => false
  end.

(** [a / b] on two [int]s *)
Definition true_div (a b : Z) : result float :=
  let neg := xorb (Z.ltb a 0) (Z.ltb b 0) in
  match Z.abs a, Z.abs b with
  | _, Z0 => Raise (ZeroDivisionError "division by zero")
  | Zpos p, Zpos q =>
      let x := round_ratio neg p q in
      if is_finite x then Ok x
      else Raise (OverflowError "integer division result too large for a float")
  | _, _ => Ok (S754_zero neg)
  end.

(** [float(n)] for an [int] small enough to be exact, as in [x * 100] *)
Definition float_of_int (n : Z) : float := binary_normalize prec emax n 0 false.

Definition fmul (x y : float) : float := SFmul prec emax x y.
Definition fadd (x y : float) : float := SFadd prec emax x y.
Definition fdiv (x y : float) : float := SFdiv prec emax x y.
Definition fsub (x y : float) : float := SFsub prec emax x y.

(** [bool(x)] for a [float] *)
Definition float_truthy (x : float) : bool :=
  match x with
  | S754_zero _ => false
  | _ => true
  end.

(** *** [int(s)] *)

Definition int_max_str_digits : nat := 4300.

(** White space around a numeric literal: the argument is first made ASCII
    (code points 133 and 160 become blanks), then the C [isspace] is used. *)
Definition is_literal_space (c : ascii) : bool :=
  (is_c_space c || N.eqb (code c) 133 || N.eqb (code c) 160)%bool.

Definition invalid_int (s : string) : exn :=
  ValueError ("invalid literal for int() with base 10: " ++ take 200 (repr s)).

Definition too_many_digits (n : nat) : exn :=
  ValueError ("Exceeds the limit (" ++ str_of_int (Z.of_nat int_max_str_digits)
              ++ " digits) for integer string conversion: value has "
              ++ str_of_int (Z.of_nat n)
              ++ " digits; use sys.set_int_max_str_digits() to increase the limit").

(** Digits with single underscores between them.  [prev_us] tells that the
    previous character was an underscore.  Returns the value, the number of
    digits and the unread text; nothing when an underscore is doubled or is
    the last character read. *)
Fixpoint scan_digits (prev_us : bool) (acc : Z) (count : nat) (s : string)
  : option (Z * nat * string) :=
  match s with
  | EmptyString => if prev_us then None else Some (acc, count, s)
  | String c s' =>
      if is_digit c then scan_digits false (10 * acc + digit_val c) (S count) s'
      else if Ascii.eqb c "_" then
        if prev_us then None else scan_digits true acc count s'
      else if prev_us then None else Some (acc, count, s)
  end.

Definition split_sign (s : string) : bool * string :=
  match s with
  | String "+" s' => (false, s')
  | String "-" s' => (true, s')
  | _ => (false, s)
  end.

Definition int (s : string) : result Z :=
  let '(neg, body) := split_sign (drop_while is_literal_space s) in
  match body with
  | String "_" _ => Raise (invalid_int s)
  | _ =>
      match scan_digits false 0 0%nat body with
      | None => Raise (invalid_int s)
      | Some (v, count, rest) =>
          if Nat.ltb int_max_str_digits count then Raise (too_many_digits count)
          else
            match count, drop_while is_literal_space rest with
            | S _, EmptyString => Ok (if neg then - v else v)
            | _, _ => Raise (invalid_int s)
            end
      end
  end.

(** *** [float(s)] *)

Fixpoint rstrip (f : ascii -> bool) (s : string) : string :=
  match s with
  | EmptyString => EmptyString
  | String c s' =>
      match rstrip f s' with
      | EmptyString => if f c then EmptyString else String c EmptyString
      | r => String c r
      end
  end.

(** An underscore must stand between two digits; the literal without its
    underscores, or nothing when one is misplaced. *)
Fixpoint remove_underscores (prev_digit : bool) (s : string) : option string :=
  match s with
  | EmptyString => Some EmptyString
  | String c s' =>
      if Ascii.eqb c "_" then
        match prev_digit, s' with
        | true, String d _ =>
            if is_digit d then remove_underscores false s' else None
        | _, _ => None
        end
      else option_map (String c) (remove_underscores (is_digit c) s')
  end.

(** A maximal run of digits: its value, its length and the unread text. *)
Fixpoint scan_run (acc : Z) (count : nat) (s : string) : Z * nat * string :=
  match s with
  | String c s' =>
      if is_digit c then scan_run (10 * acc + digit_val c) (S count) s'
      else (acc, count, s)
  | EmptyString => (acc, count, s)
  end.

(** [digits * 10 ^ exp10], correctly rounded *)
Definition decimal_value (neg : bool) (digits exp10 : Z) : float :=
  match digits with
  | Zpos p =>
      if 0 <=? exp10 then round_ratio neg (p * Z.to_pos (10 ^ exp10)) 1
      else round_ratio neg p (Z.to_pos (10 ^ (- exp10)))
  | _ => S754_zero neg
  end.

(** The exponent part of a literal: [e], an optional sign and at least one
    digit, up to the end of the text; [0] when there is no exponent part. *)
Definition scan_exponent (s : string) : option Z :=
  match s with
  | EmptyString => Some 0
  | String c s' =>
      if (Ascii.eqb c "e" || Ascii.eqb c "E")%bool then
        let '(neg, body) := split_sign s' in
        match scan_run 0 0%nat body with
        | (v, S _, EmptyString) => Some (if neg then - v else v)
        | _ => None
        end
      else None
  end.

(** [[sign] (digits [. [digits]] | . digits) [exponent]] *)
Definition parse_decimal (neg : bool) (body : string) : option float :=
  let '(int_part, n_int, rest) := scan_run 0 0%nat body in
  let '(mantissa, n_frac, rest') :=
    match rest with
    | String "." after_point =>
        let '(m, n, r) := scan_run int_part 0%nat after_point in (m, n, r)
    | _ => (int_part, 0%nat, rest)
    end in
  match (n_int + n_frac)%nat with
  | O => None
  | S _ =>
      match scan_exponent rest' with
      | Some e => Some (decimal_value neg mantissa (e - Z.of_nat n_frac))
      | None => None
      end
  end.

Definition invalid_float (s : string) : exn :=
  ValueError ("could not convert string to float: " ++ repr s).

Definition float_of_string (s : string) : result float :=
  match remove_underscores false
          (rstrip is_literal_space (drop_while is_literal_space s)) with
  | None => Raise (invalid_float s)
  | Some lit =>
      let '(neg, body) := split_sign lit in
      let name := lower body in
      if (String.eqb name "inf" || String.eqb name "infinity")%bool
      then Ok (S754_infinity neg)
      else if String.eqb name "nan" then Ok S754_nan
      else
        match parse_decimal neg body with
        | Some x => Ok x
        | None => Raise (invalid_float s)
        end
  end.

(** *** Exact sums and [statistics.mean] *)

(** The exact value of a finite [float] as a fraction. *)
Definition exact_ratio (x : float) : Z * positive :=
  match x with
  | S754_finite neg m e =>
      let n := if neg then Zneg m else Zpos m in
      match e with
      | Zneg k => (n, Pos.pow 2 k)
      | _ => (n * 2 ^ e, 1%positive)
      end
  | _ => (0, 1%positive)
  end.

Definition frac_add (a b : Z * positive) : Z * positive :=
  (fst a * Zpos (snd b) + fst b * Zpos (snd a), (snd a * snd b)%positive).

Definition exact_sum (xs : list float) : Z * positive :=
  fold_left (fun acc x => frac_add acc (exact_ratio x)) xs (0, 1%positive).

(** The float sum of the values that are not finite, in their order. *)
Definition special_sum (xs : list float) : option float :=
  fold_left
    (fun acc x =>
       if is_finite x then acc
       else match acc with
            | None => Some x
            | Some t => Some (fadd t x)
            end)
    xs None.

Definition mean (xs : list float) : result float :=
  match xs with
  | [] => Raise (OtherError "mean requires at least one data point")
  | _ :: _ =>
      let n := Z.of_nat (List.length xs) in
      match special_sum xs with
      | Some total => Ok (fdiv total (float_of_int n))
      | None =>
          let '(num, den) := exact_sum xs in
          true_div num (Zpos den * n)
      end
  end.

(** *** Formatting *)

(** [n / d] rounded to the nearest integer, ties to even ([d] positive). *)
Definition div_half_even (n d : Z) : Z :=
  let q := n / d in
  let r := n mod d in
  match 2 * r ?= d with
  | Lt => q
  | Gt => q + 1
  | Eq => if Z.even q then q else q + 1
  end.

Definition two_digits (n : Z) : string :=
  if n <? 10 then "0" ++ str_of_int n else str_of_int n.

(** [format(x, ".2f")] *)
Definition format_2f (x : float) : string :=
  match x with
  | S754_nan => "nan"
  | S754_infinity neg => if neg then "-inf" else "inf"
  | S754_zero neg => if neg then "-0.00" else "0.00"
  | S754_finite neg m e =>
      let hundredths :=
        match e with
        | Zneg k => div_half_even (Zpos m * 100) (Zpos (Pos.pow 2 k))
        | _ => Zpos m * 2 ^ e * 100
        end in
      (if neg then "-" else "")
        ++ str_of_int (hundredths / 100) ++ "." ++ two_digits (hundredths mod 100)
  end.

(** *** Values that are an [int] or a [float] *)

Inductive number : Type :=
| Int (n : Z)
| Float (x : float).

(** [bool(v)] *)
Definition truthy (v : number) : bool :=
  match v with
  | Int n => negb (n =? 0)
  | Float x => float_truthy x
  end.

(** Comparison of an [int] with a [float] by exact value. *)
Definition compare_int_float (n : Z) (x : float) : option comparison :=
  match x with
  | S754_nan => None
  | S754_infinity neg => Some (if neg then Gt else Lt)
  | S754_zero _ => Some (n ?= 0)
  | S754_finite neg m e =>
      let v := if neg then Zneg m else Zpos m in
      match e with
      | Zneg k => Some (n * Zpos (Pos.pow 2 k) ?= v)
      | _ => Some (n ?= v * 2 ^ e)
      end
  end.

Definition compare (a b : number) : option comparison :=
  match a, b with
  | Int m, Int n => Some (m ?= n)
  | Float x, Float y => SFcompare x y
  | Int m, Float y => compare_int_float m y
  | Float x, Int n => option_map CompOpp (compare_int_float n x)
  end.

(** [a < b] and [a == b] *)
Definition lt (a b : number) : bool :=
  match compare a b with
  | Some Lt => true
  | _ => false
  end.

Definition eq (a b : number) : bool :=
  match compare a b with
  | Some Eq => true
  | _ => false
  end.

End PyNum.

(** ** The script *)

Import PyStr PyNum.
Local Open Scope Z_scope.

(** A [float] literal of the source text. *)
Definition float_lit (s : string) : float :=
  match float_of_string s with
  | Ok x => x
  | Raise _ => S754_nan
  end.

Definition PING_COUNT : Z := 40.
Definition TIMEOUT_MS : Z := 400.
Definition MAX_THREADS : Z := 8.

(** *** The process boundary *)

Record CompletedProcess : Type := {
  returncode : Z;
  stdout : string;
  stderr : string
}.

(** What the operating system does with a command: the child cannot be
    started or its output cannot be read, with the message of the exception
    that reports it; or it runs for [duration] seconds and exits. *)
Inductive process : Type :=
| Fails (msg : string)
| Exits (duration : Z) (cp : CompletedProcess).

(** The surroundings of one probe: the platform name, the operating system
    and the two readings of the clock. *)
Record env : Type := {
  platform_system : string;
  os_run : list string -> process;
  clock_start : float;
  clock_end : float
}.

(** [str(command)] *)
Definition str_of_list (xs : list string) : string :=
  "[" ++ String.concat ", " (map repr xs) ++ "]".

(** [subprocess.run(command, stdout=PIPE, stderr=PIPE, text=True,
    timeout=timeout)]: [TimeoutExpired] is raised only when a timeout was
    given and the child outlives it. *)
Definition subprocess_run (os : list string -> process) (command : list string)
    (timeout : option Z) : result CompletedProcess :=
  match os command with
  | Fails msg => Raise (OtherError msg)
  | Exits duration cp =>
      match timeout with
      | Some t =>
          if t <? duration
          then Raise (TimeoutExpired ("Command '" ++ str_of_list command
                                      ++ "' timed out after " ++ str_of_int t
                                      ++ " seconds"))
          else Ok cp
      | None => Ok cp
      end
  end.

Definition is_windows (e : env) : bool :=
  String.eqb (lower (platform_system e)) "windows".

(** [str(TIMEOUT_MS / 1000)]: the quotient [400 / 1000] prints as [0.4]. *)
Definition timeout_seconds_str : string := "0.4".

Definition ping_command (e : env) (host : string) : list string :=
  let param := if is_windows e then "-n" else "-c" in
  let command := ["ping"; param; str_of_int PING_COUNT] in
  let command :=
    if is_windows e then (command ++ ["-w"; str_of_int TIMEOUT_MS])%list
    else (command ++ ["-W"; timeout_seconds_str])%list in
  (command ++ [host])%list.

Definition execute_ping (e : env) (host : string) : result CompletedProcess :=
  subprocess_run (os_run e) (ping_command e host) None.

(** *** The output parser *)

Module Stats.
Record t : Type := {
  times : list float;
  received : Z;
  lost : Z;
  error : option string;
  raw_output : string
}.
End Stats.

(** Lines 49-53 of [analyze_ping], on the lower-cased output. *)
Definition parse_received (output : string) : result Z :=
  if contains "received =" output then
    seg <- index (split "received = " output) 1 ;;
    tok <- index (split "," seg) 0 ;;
    int tok
  else if contains "packets transmitted" output then
    seg <- index (split "packets transmitted, " output) 1 ;;
    let parts := split " received," seg in
    tok <- index parts 0 ;;
    int tok
  else Ok 0.

(** Line 60: the sample of one line that holds [time=]. *)
Definition parse_time (line : string) : result float :=
  seg <- index (split "time=" line) 1 ;;
  tok <- index (split_ws seg) 0 ;;
  float_of_string (replace "ms" "" tok).

(** [except (ValueError, IndexError)] *)
Definition is_parse_error (e : exn) : bool :=
  match e with
  | ValueError _ | IndexError _ => true
  | _ => false
  end.

(** Lines 57-63: the loop over the lines, appending to [times]. *)
Fixpoint scan_times (lines : list string) (times : list float)
  : result (list float) :=
  match lines with
  | [] => Ok times
  | line :: rest =>
      if contains "time=" line then
        match parse_time line with
        | Ok t => scan_times rest (times ++ [t])%list
        | Raise e =>
            if is_parse_error e then scan_times rest times else Raise e
        end
      else scan_times rest times
  end.

Definition newline : string := String (ascii_of_N 10) EmptyString.

Definition analyze_ping (output host : string) : result Stats.t :=
  let output := lower output in
  received <- parse_received output ;;
  let lost := PING_COUNT - received in
  times <- scan_times (split newline output) [] ;;
  Ok {| Stats.times := times;
        Stats.received := received;
        Stats.lost := lost;
        Stats.error := None;
        Stats.raw_output := output |}.

(** *** The host prober *)

Record HostResult : Type := {
  server : string;
  sent : Z;
  received : Z;
  lost : Z;
  packet_loss : float;
  average_ping : number;
  status : string;
  response_time : string
}.

Definition error_result (host error : string) : HostResult :=
  {| server := host;
     sent := PING_COUNT;
     received := 0;
     lost := PING_COUNT;
     packet_loss := float_lit "100.0";
     average_ping := Int 0;
     status := "Error: " ++ error;
     response_time := "N/A" |}.

(** Lines 75-85: the record built from a probe that exited with code 0. *)
Definition success_result (e : env) (host : string) (cp : CompletedProcess)
  : result HostResult :=
  stats <- analyze_ping (stdout cp) host ;;
  ratio <- true_div (Stats.lost stats) PING_COUNT ;;
  average <- match Stats.times stats with
             | [] => Ok (Int 0)
             | _ :: _ => x <- mean (Stats.times stats) ;; Ok (Float x)
             end ;;
  Ok {| server := host;
        sent := PING_COUNT;
        received := Stats.received stats;
        lost := Stats.lost stats;
        packet_loss := fmul ratio (float_of_int 100);
        average_ping := average;
        status := if Stats.received stats =? 0 then "Failed" else "Success";
        response_time :=
          format_2f (fsub (clock_end e) (clock_start e)) ++ "s" |}.

(** The body of the [try] statement of [ping_host]. *)
Definition ping_host_try (e : env) (host : string) : result HostResult :=
  cp <- execute_ping e host ;;
  if negb (returncode cp =? 0) then
    Ok (error_result host
          ("Ping failed (code " ++ str_of_int (returncode cp) ++ ")"))
  else success_result e host cp.

Definition ping_host (e : env) (host : string) : HostResult :=
  match ping_host_try e host with
  | Ok r => r
  | Raise (TimeoutExpired _) => error_result host "Timeout"
  | Raise exc => error_result host (exn_str exc)
  end.

(** *** The batch coordinator: ordering of the results *)

(** [a < b] on the tuples built by the sort key. *)
Definition key_lt (a b : bool * number) : bool :=
  if Bool.eqb (fst a) (fst b) then
    if PyNum.eq (snd a) (snd b) then false else PyNum.lt (snd a) (snd b)
  else (negb (fst a) && fst b)%bool.

Section Sort.
Context {A K : Type} (lt : K -> K -> bool) (key : A -> K).

Fixpoint insert (x : A) (l : list A) : list A :=
  match l with
  | [] => [x]
  | y :: l' => if lt (key y) (key x) then y :: insert x l' else x :: l
  end.

(** [l.sort(key=key)]: a stable sort that compares keys with [<] only.
    Whenever [<] orders the keys consistently every stable sort returns
    the same list, the one built here by insertion. *)
Definition sort_by (l : list A) : list A := fold_right insert [] l.
End Sort.

(** Lines 181-184 *)
Definition sort_key (x : HostResult) : bool * number :=
  (negb (String.eqb (status x) "Success"),
   if truthy (average_ping x) then average_ping x
   else Float (float_lit "inf")).

Definition sort_results (results : list HostResult) : list HostResult :=
  sort_by key_lt sort_key results.

(** The results of one batch: the probes, listed in the order in which they
    complete, then sorted. *)
Definition batch_results (completed : list (env * string)) : list HostResult :=
  sort_results (map (fun p => ping_host (fst p) (snd p)) completed).

(** * Properties *)

(** ** Text before and after a separator *)

(** The text before the first occurrence of [sep], all of it when there is
    none: [s.split(sep)[0]]. *)
Definition up_to (sep s : string) : string :=
  match find_first sep s with
  | Some (before, _) => before
  | None => s
  end.

Lemma strip_prefix_app p s r : strip_prefix p s = Some r -> s = p ++ r.
Proof.
  revert s; induction p as [|a p IH]; intros [|b s]; simpl; try congruence.
  destruct (Ascii.eqb_spec a b) as [->|]; [|discriminate].
  intros H; now rewrite (IH _ H).
Qed.

Lemma find_first_app sep s before after :
  find_first sep s = Some (before, after) -> s = before ++ sep ++ after.
Proof.
  revert before; induction s as [|c s IH]; intros before; simpl.
  - destruct (strip_prefix sep "") eqn:E; [|discriminate].
    intros [= <- <-]. simpl. now apply strip_prefix_app.
  - destruct (strip_prefix sep (String c s)) eqn:E.
    + intros [= <- <-]. simpl. now apply strip_prefix_app.
    + destruct (find_first sep s) as [[b a]|]; [|discriminate].
      intros [= <- <-]. simpl. f_equal. now apply IH.
Qed.

Lemma length_app (a b : string) :
  String.length (a ++ b) = (String.length a + String.length b)%nat.
Proof. induction a; simpl; congruence. Qed.

Lemma find_first_shorter sep s before after :
  sep <> "" -> find_first sep s = Some (before, after) ->
  (String.length after < String.length s)%nat.
Proof.
  intros Hsep H. rewrite (find_first_app _ _ _ _ H), !length_app.
  destruct sep; [congruence|simpl; lia].
Qed.

Lemma find_first_empty sep : sep <> "" -> find_first sep "" = None.
Proof. destruct sep; [congruence|reflexivity]. Qed.

Lemma split_fuel_head n sep s :
  sep <> "" -> (String.length s <= n)%nat ->
  nth_error (split_fuel n sep s) 0 = Some (up_to sep s).
Proof.
  intros Hsep Hn. unfold up_to. destruct n; simpl.
  - destruct s; [|simpl in Hn; lia]. now rewrite find_first_empty.
  - now destruct (find_first sep s) as [[b a]|].
Qed.

Lemma split_head sep s : sep <> "" -> index (split sep s) 0 = Ok (up_to sep s).
Proof.
  intros Hsep. unfold index, split. now rewrite split_fuel_head.
Qed.

Lemma split_second sep s before after :
  sep <> "" -> find_first sep s = Some (before, after) ->
  index (split sep s) 1 = Ok (up_to sep after).
Proof.
  intros Hsep H. pose proof (find_first_shorter _ _ _ _ Hsep H) as Hlen.
  unfold index, split. destruct (String.length s) as [|n] eqn:E; [lia|].
  cbn [split_fuel]. rewrite H. cbn [nth_error].
  assert (Hh := split_fuel_head n sep after Hsep ltac:(lia)).
  destruct (split_fuel n sep after); simpl in Hh; congruence.
Qed.

Lemma split_no_second sep s :
  find_first sep s = None ->
  index (split sep s) 1 = Raise (IndexError "list index out of range").
Proof.
  intros H. unfold index, split. destruct (String.length s); simpl; [easy|].
  now rewrite H.
Qed.

(** ** Which exceptions the runtime operations raise *)

Lemma index_raises {A} (xs : list A) i e :
  index xs i = Raise e -> e = IndexError "list index out of range".
Proof. unfold index. destruct (nth_error xs i); congruence. Qed.

Lemma int_raises s e :
  int s = Raise e ->
  e = invalid_int s \/ exists n, e = too_many_digits n.
Proof.
  unfold int. destruct (split_sign _) as [neg body].
  assert (H : forall e,
    match scan_digits false 0 0 body with
    | Some (v, count, rest) =>
        if (int_max_str_digits <? count)%nat then Raise (too_many_digits count)
        else match count, drop_while is_literal_space rest with
             | S _, "" => Ok (if neg then - v else v)
             | _, _ => Raise (invalid_int s)
             end
    | None => Raise (invalid_int s)
    end = Raise e -> e = invalid_int s \/ exists n, e = too_many_digits n).
  { intros e'. destruct (scan_digits _ _ _ _) as [[[v count] rest]|].
    - destruct (_ <? _)%nat.
      + intros [= <-]. right; eauto.
      + destruct count; [intros [= <-]; now left|].
        destruct (drop_while _ _); intros [= <-]; now left.
    - intros [= <-]; now left. }
  destruct body as [|c body']; [apply H|].
  destruct (Ascii.eqb_spec c "_") as [->|Hc].
  - intros [= <-]; now left.
  - destruct c as [[] [] [] [] [] [] [] []]; try apply H.
    congruence.
Qed.

Lemma float_raises s e : float_of_string s = Raise e -> e = invalid_float s.
Proof.
  unfold float_of_string.
  destruct (remove_underscores _ _); [|congruence].
  destruct (split_sign _) as [neg body].
  destruct (_ || _)%bool; [discriminate|].
  destruct (String.eqb _ _); [discriminate|].
  destruct (parse_decimal _ _); congruence.
Qed.

Lemma true_div_raises a b e :
  true_div a b = Raise e ->
  e = ZeroDivisionError "division by zero"
  \/ e = OverflowError "integer division result too large for a float".
Proof.
  unfold true_div.
  destruct (Z.abs a), (Z.abs b); try discriminate;
    try (intros [= <-]; now left);
    destruct (is_finite _); try discriminate; intros [= <-]; now right.
Qed.

Lemma mean_raises xs e :
  mean xs = Raise e ->
  e = OtherError "mean requires at least one data point"
  \/ e = ZeroDivisionError "division by zero"
  \/ e = OverflowError "integer division result too large for a float".
Proof.
  unfold mean. destruct xs as [|x xs]; [intros [= <-]; now left|].
  destruct (special_sum _); [discriminate|].
  destruct (exact_sum _) as [num den]. intros H; right.
  now apply true_div_raises in H.
Qed.

Lemma parse_time_raises line e :
  parse_time line = Raise e -> is_parse_error e = true.
Proof.
  unfold parse_time.
  destruct (index (split "time=" line) 1) as [seg|e1] eqn:E1; simpl.
  - destruct (index (split_ws seg) 0) as [tok|e2] eqn:E2; simpl.
    + intros H. now rewrite (float_raises _ _ H).
    + intros [= <-]. now rewrite (index_raises _ _ _ E2).
  - intros [= <-]. now rewrite (index_raises _ _ _ E1).
Qed.

(** The sample of a line, when the line holds one. *)
Definition line_sample (line : string) : list float :=
  if contains "time=" line then
    match parse_time line with
    | Ok t => [t]
    | Raise _ => []
    end
  else [].

(** The loop over the lines never raises: every line adds its sample, if it
    has one, after the samples of the lines before it. *)
Lemma scan_times_total lines times :
  scan_times lines times = Ok (times ++ flat_map line_sample lines)%list.
Proof.
  revert times; induction lines as [|line rest IH]; intros times; simpl.
  - now rewrite app_nil_r.
  - unfold line_sample at 1. destruct (contains "time=" line); [|apply IH].
    destruct (parse_time line) as [t|e] eqn:E.
    + rewrite IH, <- app_assoc. reflexivity.
    + rewrite (parse_time_raises _ _ E). apply IH.
Qed.

(** The samples found in a lower-cased output. *)
Definition output_times (output : string) : list float :=
  flat_map line_sample (split newline output).

Definition make_stats (output : string) (n : Z) : Stats.t :=
  {| Stats.times := output_times output;
     Stats.received := n;
     Stats.lost := PING_COUNT - n;
     Stats.error := None;
     Stats.raw_output := output |}.

Lemma analyze_ping_eq output host :
  analyze_ping output host =
  (n <- parse_received (lower output) ;; Ok (make_stats (lower output) n)).
Proof.
  unfold analyze_ping. destruct (parse_received _); simpl; [|reflexivity].
  now rewrite scan_times_total.
Qed.

Lemma parse_received_raises output e :
  parse_received output = Raise e ->
  e = IndexError "list index out of range"
  \/ (exists s, e = invalid_int s) \/ (exists n, e = too_many_digits n).
Proof.
  unfold parse_received.
  assert (Hint : forall s, int s = Raise e ->
     e = IndexError "list index out of range"
     \/ (exists s, e = invalid_int s) \/ (exists n, e = too_many_digits n)).
  { intros s H. destruct (int_raises _ _ H) as [->|[n ->]]; eauto. }
  assert (Hidx : forall (xs : list string) i (k : string -> result Z),
     (tok <- index xs i ;; k tok) = Raise e ->
     (forall tok, k tok = Raise e ->
        e = IndexError "list index out of range"
        \/ (exists s, e = invalid_int s) \/ (exists n, e = too_many_digits n)) ->
     e = IndexError "list index out of range"
     \/ (exists s, e = invalid_int s) \/ (exists n, e = too_many_digits n)).
  { intros xs i k H Hk. destruct (index xs i) as [tok|e1] eqn:E; simpl in H.
    - eauto.
    - left. injection H as <-. eapply index_raises; eauto. }
  destruct (contains "received =" output).
  - intros H. eapply Hidx; [exact H|]. intros seg Hs.
    eapply Hidx; [exact Hs|]. intros tok. apply Hint.
  - destruct (contains "packets transmitted" output); [|discriminate].
    intros H. eapply Hidx; [exact H|]. intros seg Hs.
    eapply Hidx; [exact Hs|]. intros tok. apply Hint.
Qed.

(** ** The shape of every host result *)

(** A fault: the command could not be run, it exited with a code other than
    0, or reading its output raised. *)
Definition probe_fault (e : env) (host : string) : bool :=
  match execute_ping e host with
  | Raise _ => true
  | Ok cp =>
      if returncode cp =? 0 then
        match success_result e host cp with
        | Ok _ => false
        | Raise _ => true
        end
      else true
  end.

Lemma success_result_inv e host cp r :
  success_result e host cp = Ok r ->
  exists stats ratio,
    analyze_ping (stdout cp) host = Ok stats
    /\ true_div (Stats.lost stats) PING_COUNT = Ok ratio
    /\ server r = host
    /\ sent r = PING_COUNT
    /\ received r = Stats.received stats
    /\ lost r = Stats.lost stats
    /\ packet_loss r = fmul ratio (float_of_int 100)
    /\ (average_ping r = Int 0 \/ exists x, average_ping r = Float x)
    /\ status r = (if Stats.received stats =? 0 then "Failed" else "Success").
Proof.
  unfold success_result.
  destruct (analyze_ping _ _) as [stats|] eqn:Ea; [simpl|discriminate].
  destruct (true_div _ _) as [ratio|] eqn:Et; [simpl|discriminate].
  destruct (Stats.times stats) as [|t ts]; cbn [bind].
  - intros [= <-]. exists stats, ratio. simpl. intuition.
  - destruct (mean (t :: ts)) as [x|]; [cbn [bind]|discriminate].
    intros [= <-]. exists stats, ratio. simpl. intuition eauto.
Qed.

(** Every result is either built by [error_result], exactly when there was a
    fault, or built from the statistics of a probe that exited with 0. *)
Lemma ping_host_inv e host :
  (probe_fault e host = true
   /\ exists reason, ping_host e host = error_result host reason)
  \/ (probe_fault e host = false
      /\ exists cp, execute_ping e host = Ok cp /\ returncode cp = 0
         /\ success_result e host cp = Ok (ping_host e host)).
Proof.
  unfold ping_host, ping_host_try, probe_fault.
  destruct (execute_ping e host) as [cp|exc]; simpl.
  - destruct (Z.eqb_spec (returncode cp) 0) as [Hrc|Hrc]; simpl.
    + destruct (success_result e host cp) as [r|exc] eqn:E.
      * right. split; [reflexivity|]. exists cp. auto.
      * left. split; [reflexivity|]. destruct exc; eauto.
    + left. split; [reflexivity|]. eauto.
  - left. split; [reflexivity|]. destruct exc; eauto.
Qed.

Lemma analyze_ping_lost output host stats :
  analyze_ping output host = Ok stats ->
  Stats.lost stats = PING_COUNT - Stats.received stats.
Proof.
  rewrite analyze_ping_eq. destruct (parse_received _); [|discriminate].
  now intros [= <-].
Qed.

(** A probe whose command exits at once with the given code and output. *)
Definition exited (code : Z) (output : string) : env :=
  {| platform_system := "Linux";
     os_run := fun _ =>
       Exits 0 {| returncode := code; stdout := output; stderr := "" |};
     clock_start := S754_zero false;
     clock_end := S754_zero false |}.

(** ** Claims about one host result *)

(** C2: in every result of [ping_host], and in every result of
    [error_result], the received count plus the lost count is the sent
    count, and the sent count is the fixed packet count 40. *)
Theorem received_plus_lost_is_sent :
  (forall e host,
      let r := ping_host e host in
      received r + lost r = sent r /\ sent r = 40)
  /\ (forall host error,
         let r := error_result host error in
         received r + lost r = sent r /\ sent r = 40).
Proof.
  split; [|intros host error; simpl; split; reflexivity].
  intros e host r; subst r.
  destruct (ping_host_inv e host) as [[_ [reason ->]]|[_ (cp & _ & _ & H)]].
  - simpl; split; reflexivity.
  - apply success_result_inv in H.
    destruct H as (stats & ratio & Ha & _ & _ & Hs & Hr & Hl & _).
    rewrite Hs, Hr, Hl, (analyze_ping_lost _ _ _ Ha).
    unfold PING_COUNT. split; [lia|reflexivity].
Qed.

Lemma error_status_not_plain host reason :
  status (error_result host reason) <> "Success"
  /\ status (error_result host reason) <> "Failed".
Proof. simpl; split; discriminate. Qed.

(** C1, as the claim states it, fails on an output that reports a negative
    count: the status is "Success" although no packet was received. *)
Lemma success_with_negative_count :
  let r := ping_host (exited 0 "received = -1,") "host" in
  ~ (status r = "Success"
     <-> received r > 0 /\ probe_fault (exited 0 "received = -1,") "host" = false).
Proof.
  intros r [H _].
  assert (Hs : status r = "Success") by (vm_compute; reflexivity).
  destruct (H Hs) as [Hr _]. vm_compute in Hr. discriminate.
Qed.

(** C1, amended: the status is "Success" exactly when there was no fault and
    the received count is not 0, "Failed" exactly when there was no fault
    and the count is 0, and "Error: <reason>" exactly when there was a
    fault. *)
Theorem status_classification :
  forall e host,
    let r := ping_host e host in
    (status r = "Success" <-> received r <> 0 /\ probe_fault e host = false)
    /\ (status r = "Failed" <-> received r = 0 /\ probe_fault e host = false)
    /\ (probe_fault e host = true
        <-> exists reason, status r = "Error: " ++ reason).
Proof.
  intros e host r; subst r.
  destruct (ping_host_inv e host) as [[Hf [reason Hr]]|[Hf (cp & _ & _ & H)]].
  - rewrite Hr, Hf.
    destruct (error_status_not_plain host reason) as [H1 H2].
    repeat split; try tauto; try (intros [_ ?]; discriminate).
    intros _. exists reason. reflexivity.
  - apply success_result_inv in H.
    destruct H as (stats & ratio & _ & _ & _ & _ & Hr & _ & _ & _ & Hst).
    rewrite Hf, Hr, Hst.
    destruct (Z.eqb_spec (Stats.received stats) 0) as [Hz|Hz].
    + repeat split; try tauto; try discriminate.
      intros [reason Hre]. simpl in Hre. discriminate.
    + repeat split; try tauto; try discriminate.
      intros [reason Hre]. simpl in Hre. discriminate.
Qed.

(** C5: in every result of [ping_host], and in every result of
    [error_result], the packet loss is the lost count divided by the sent
    count, times 100, computed in binary64; the constant 100.0 of the error
    path is that value for 40 lost out of 40. *)
Theorem packet_loss_is_ratio :
  (forall e host,
      let r := ping_host e host in
      (ratio <- true_div (lost r) (sent r) ;; Ok (fmul ratio (float_of_int 100)))
      = Ok (packet_loss r))
  /\ (forall host error,
         let r := error_result host error in
         (ratio <- true_div (lost r) (sent r) ;; Ok (fmul ratio (float_of_int 100)))
         = Ok (packet_loss r)).
Proof.
  split; [|intros host error; vm_compute; reflexivity].
  intros e host r; subst r.
  destruct (ping_host_inv e host) as [[_ [reason ->]]|[_ (cp & _ & _ & H)]].
  - vm_compute; reflexivity.
  - apply success_result_inv in H.
    destruct H as (stats & ratio & _ & Hd & _ & Hs & _ & Hl & Hp & _).
    rewrite Hs, Hl, Hp, Hd. reflexivity.
Qed.

(** C7: when the command exits with a code N other than 0, the result is the
    error record with reason "Ping failed (code N)": nothing received, all
    40 packets lost, average 0, response time "N/A", whatever the captured
    output holds. *)
Theorem nonzero_exit_is_error e host duration cp :
  os_run e (ping_command e host) = Exits duration cp ->
  returncode cp <> 0 ->
  let r := ping_host e host in
  r = error_result host
        ("Ping failed (code " ++ str_of_int (returncode cp) ++ ")")
  /\ status r = "Error: Ping failed (code " ++ str_of_int (returncode cp) ++ ")"
  /\ received r = 0
  /\ lost r = sent r
  /\ sent r = 40
  /\ average_ping r = Int 0
  /\ response_time r = "N/A".
Proof.
  intros Hos Hrc r; subst r.
  unfold ping_host, ping_host_try, execute_ping, subprocess_run.
  rewrite Hos. cbn [bind].
  destruct (Z.eqb_spec (returncode cp) 0) as [|_]; [contradiction|].
  simpl. repeat split; reflexivity.
Qed.

Lemma nonzero_exit_is_error_witness :
  let e := exited 2 "40 packets transmitted, 38 received," in
  ping_host e "host" = error_result "host" "Ping failed (code 2)"
  /\ status (ping_host e "host") = "Error: Ping failed (code 2)".
Proof.
  intros e.
  destruct (nonzero_exit_is_error e "host" 0
              {| returncode := 2;
                 stdout := "40 packets transmitted, 38 received,";
                 stderr := "" |} eq_refl ltac:(discriminate))
    as (H1 & H2 & _).
  split; [exact H1|exact H2].
Defined.

(** C8, as the claim states it, fails: a count above 40 is taken as it is,
    and the lost count is then negative. *)
Lemma received_above_packet_count :
  exists stats,
    analyze_ping "received = 41," "host" = Ok stats
    /\ ~ (0 <= Stats.received stats <= 40)
    /\ Stats.lost stats < 0.
Proof.
  eexists. split; [vm_compute; reflexivity|]. simpl. split; lia.
Qed.

(** ** The timeout handler *)

(** The exceptions raised by the runtime operations of the script. *)
Inductive runtime_exn : exn -> Prop :=
| rt_index : runtime_exn (IndexError "list index out of range")
| rt_int s : runtime_exn (invalid_int s)
| rt_digits n : runtime_exn (too_many_digits n)
| rt_zero : runtime_exn (ZeroDivisionError "division by zero")
| rt_overflow :
    runtime_exn (OverflowError "integer division result too large for a float")
| rt_mean : runtime_exn (OtherError "mean requires at least one data point").

Lemma runtime_exn_not_timeout exc :
  runtime_exn exc ->
  (forall msg, exc <> TimeoutExpired msg) /\ exn_str exc <> "Timeout".
Proof.
  intros []; (split; [intros msg; discriminate|]);
    unfold invalid_int, too_many_digits, exn_str; cbn [append]; discriminate.
Qed.

Lemma success_result_raises e host cp exc :
  success_result e host cp = Raise exc -> runtime_exn exc.
Proof.
  unfold success_result. rewrite analyze_ping_eq.
  destruct (parse_received _) as [n|e1] eqn:E1; cbn [bind].
  - destruct (true_div _ _) as [ratio|e2] eqn:E2; cbn [bind].
    + destruct (Stats.times _) as [|t ts]; cbn [bind]; [discriminate|].
      destruct (mean (t :: ts)) as [x|e3] eqn:E3; cbn [bind]; [discriminate|].
      intros [= <-].
      destruct (mean_raises _ _ E3) as [->|[->| ->]]; constructor.
    + intros [= <-].
      destruct (true_div_raises _ _ _ E2) as [->| ->]; constructor.
  - intros [= <-].
    destruct (parse_received_raises _ _ E1) as [->|[[s ->]|[n ->]]];
      constructor.
Qed.

(** What the body of the [try] statement can raise: the report of the
    operating system, or an exception of the runtime. *)
Lemma ping_host_try_raises e host exc :
  ping_host_try e host = Raise exc ->
  (exists msg, os_run e (ping_command e host) = Fails msg
               /\ exc = OtherError msg)
  \/ runtime_exn exc.
Proof.
  unfold ping_host_try, execute_ping, subprocess_run.
  destruct (os_run e (ping_command e host)) as [msg|d cp]; cbn [bind].
  - intros [= <-]. left; eauto.
  - destruct (negb _); [discriminate|].
    intros H; right. eapply success_result_raises; eauto.
Qed.

(** With a timeout, a child that outlives it does raise [TimeoutExpired]. *)
Lemma subprocess_run_times_out os command t duration cp :
  os command = Exits duration cp -> t < duration ->
  exists msg, subprocess_run os command (Some t) = Raise (TimeoutExpired msg).
Proof.
  intros Hos Ht. unfold subprocess_run. rewrite Hos.
  destruct (Z.ltb_spec t duration); [eauto|lia].
Qed.

(** C10: [execute_ping] runs the command without a timeout, so it never
    raises [TimeoutExpired]; nor does the rest of the [try] body, so the
    handler of [TimeoutExpired] is never entered; and no result has the
    status "Error: Timeout", unless the operating system reports a failure
    whose own message is the bare word "Timeout", which then passes through
    the general handler. *)
Theorem timeout_handler_unreachable e host :
  (forall msg, execute_ping e host <> Raise (TimeoutExpired msg))
  /\ (forall msg, ping_host_try e host <> Raise (TimeoutExpired msg))
  /\ (os_run e (ping_command e host) <> Fails "Timeout" ->
      status (ping_host e host) <> "Error: Timeout").
Proof.
  split; [|split].
  - intros msg. unfold execute_ping, subprocess_run.
    destruct (os_run e (ping_command e host)); discriminate.
  - intros msg H.
    destruct (ping_host_try_raises _ _ _ H) as [(m & _ & Hm)|Hrt];
      [discriminate|].
    now apply (proj1 (runtime_exn_not_timeout _ Hrt) msg).
  - intros Hos. unfold ping_host.
    destruct (ping_host_try e host) as [r|exc] eqn:E.
    + unfold ping_host_try in E.
      destruct (execute_ping e host) as [cp|]; cbn [bind] in E; [|discriminate].
      destruct (negb _).
      * injection E as <-. simpl. discriminate.
      * apply success_result_inv in E.
        destruct E as (stats & ratio & _ & _ & _ & _ & _ & _ & _ & _ & ->).
        destruct (_ =? _); discriminate.
    + destruct (ping_host_try_raises _ _ _ E) as [(m & Hm & ->)|Hrt].
      * simpl. intros [= ->]. contradiction.
      * destruct (runtime_exn_not_timeout _ Hrt) as [Hne Hstr].
        destruct exc; simpl in *; congruence.
Qed.

Lemma timeout_handler_unreachable_witness :
  let e := {| platform_system := "Linux";
              os_run := fun _ => Fails "[Errno 2] No such file or directory: 'ping'";
              clock_start := S754_zero false;
              clock_end := S754_zero false |} in
  status (ping_host e "host") <> "Error: Timeout".
Proof.
  intros e.
  apply (proj2 (proj2 (timeout_handler_unreachable e "host"))).
  discriminate.
Defined.

(** ** The received count *)

Lemma strip_prefix_complete p r : strip_prefix p (p ++ r) = Some r.
Proof.
  induction p as [|a p IH]; simpl; [now destruct r|].
  now rewrite Ascii.eqb_refl.
Qed.

Lemma find_first_complete sep a b : find_first sep (a ++ sep ++ b) <> None.
Proof.
  induction a as [|c a IH]; simpl.
  - destruct (sep ++ b) eqn:E; simpl;
      rewrite <- E, strip_prefix_complete; discriminate.
  - destruct (strip_prefix sep (String c (a ++ sep ++ b))); [discriminate|].
    destruct (find_first sep (a ++ sep ++ b)) as [[x y]|]; congruence.
Qed.

Lemma append_assoc (a b c : string) : (a ++ b) ++ c = a ++ b ++ c.
Proof. induction a; simpl; congruence. Qed.

(** A text that holds [p ++ q] holds [p]. *)
Lemma contains_prefix p q s :
  contains (p ++ q) s = true -> contains p s = true.
Proof.
  unfold contains.
  destruct (find_first (p ++ q) s) as [[a b]|] eqn:E; [intros _|discriminate].
  apply find_first_app in E. rewrite append_assoc in E. subst s.
  pose proof (find_first_complete p a (q ++ b)).
  destruct (find_first p _); congruence.
Qed.

Lemma contains_find sep s before after :
  find_first sep s = Some (before, after) -> contains sep s = true.
Proof. unfold contains. now intros ->. Qed.

Lemma not_contains_find sep s : contains sep s = false -> find_first sep s = None.
Proof. unfold contains. now destruct (find_first sep s). Qed.

(** The short texts that [analyze_ping] looks for occur only where the
    longer texts it splits on occur. *)
Definition guards_agree (output : string) : bool :=
  if contains "received =" output then contains "received = " output
  else if contains "packets transmitted" output
       then contains "packets transmitted, " output
       else true.

(** The received count as the two markers give it: after the first
    "received = " up to the next comma, else after the first
    "packets transmitted, " up to the next " received,", else 0. *)
Definition received_by_markers (output : string) : result Z :=
  match find_first "received = " output with
  | Some (_, after) => int (up_to "," (up_to "received = " after))
  | None =>
      match find_first "packets transmitted, " output with
      | Some (_, after) =>
          int (up_to " received," (up_to "packets transmitted, " after))
      | None => Ok 0
      end
  end.

Lemma parse_received_windows output before after :
  find_first "received = " output = Some (before, after) ->
  parse_received output = int (up_to "," (up_to "received = " after)).
Proof.
  intros H. unfold parse_received.
  rewrite (contains_prefix "received =" " " output)
    by (eapply contains_find; exact H).
  rewrite (split_second "received = " _ _ _ ltac:(discriminate) H).
  cbn [bind]. rewrite split_head by discriminate. reflexivity.
Qed.

Lemma parse_received_posix output before after :
  contains "received =" output = false ->
  find_first "packets transmitted, " output = Some (before, after) ->
  parse_received output
  = int (up_to " received," (up_to "packets transmitted, " after)).
Proof.
  intros Hw H. unfold parse_received. rewrite Hw.
  rewrite (contains_prefix "packets transmitted" ", " output)
    by (eapply contains_find; exact H).
  rewrite (split_second "packets transmitted, " _ _ _ ltac:(discriminate) H).
  cbn [bind]. rewrite split_head by discriminate. reflexivity.
Qed.

Lemma parse_received_by_markers output :
  guards_agree output = true ->
  parse_received output = received_by_markers output.
Proof.
  unfold guards_agree, received_by_markers. intros Hg.
  destruct (contains "received =" output) eqn:Hw.
  - unfold contains in Hg.
    destruct (find_first "received = " output) as [[b a]|] eqn:E;
      [|discriminate].
    eapply parse_received_windows; eauto.
  - assert (Hn : find_first "received = " output = None).
    { apply not_contains_find.
      destruct (contains "received = " output) eqn:C; [|reflexivity].
      apply (contains_prefix "received =" " ") in C. congruence. }
    rewrite Hn.
    destruct (contains "packets transmitted" output) eqn:Hp.
    + unfold contains in Hg.
      destruct (find_first "packets transmitted, " output) as [[b a]|] eqn:E;
        [|discriminate].
      eapply parse_received_posix; eauto.
    + assert (Hm : find_first "packets transmitted, " output = None).
      { apply not_contains_find.
        destruct (contains "packets transmitted, " output) eqn:C; [|reflexivity].
        apply (contains_prefix "packets transmitted" ", ") in C. congruence. }
      rewrite Hm. unfold parse_received. now rewrite Hw, Hp.
Qed.

Lemma count_after_windows_marker rest :
  up_to "," (up_to "received = " ("38," ++ rest)) = "38".
Proof.
  unfold up_to at 2. simpl.
  destruct (find_first "received = " rest) as [[b a]|]; reflexivity.
Qed.

Lemma count_after_posix_marker rest :
  up_to " received," (up_to "packets transmitted, " ("37 received," ++ rest))
  = "37".
Proof.
  unfold up_to at 2. simpl.
  destruct (find_first "packets transmitted, " rest) as [[b a]|]; reflexivity.
Qed.

(** C3, as the claim states it, fails: an output that holds "received = 38,"
    does not yield 38 when an earlier "received = " comes first. *)
Lemma first_marker_decides :
  contains "received = 38," "received = 7, received = 38," = true
  /\ exists stats,
       analyze_ping "received = 7, received = 38," "host" = Ok stats
       /\ Stats.received stats = 7
       /\ Stats.lost stats = 33.
Proof.
  split; [reflexivity|]. eexists. split; [vm_compute; reflexivity|].
  split; reflexivity.
Qed.

(** The short guards are weaker than the markers: here neither marker is
    present, and [analyze_ping] raises instead of returning a count of 0. *)
Lemma guard_without_marker :
  contains "received = " "packets transmitted" = false
  /\ contains "packets transmitted, " "packets transmitted" = false
  /\ analyze_ping "packets transmitted" "host"
     = Raise (IndexError "list index out of range").
Proof. repeat split; vm_compute; reflexivity. Qed.

(** C3, amended: on an output where the short guards agree with the
    markers, the received count is the integer written after the first
    "received = " up to the next comma; failing that marker, the integer
    written after the first "packets transmitted, " up to the next
    " received,"; and 0 when neither marker is present ([int] raises when
    the text is not an integer).  The lost count is always 40 minus the
    received count.  An output whose first "received = " is followed by
    "38," gives 38 and 2; an output without "received =" whose first
    "packets transmitted, " is followed by "37 received," gives 37 and 3. *)
Theorem received_count_by_markers output host :
  (guards_agree (lower output) = true ->
   analyze_ping output host
   = (n <- received_by_markers (lower output) ;;
      Ok (make_stats (lower output) n)))
  /\ (forall stats,
         analyze_ping output host = Ok stats ->
         Stats.lost stats = PING_COUNT - Stats.received stats)
  /\ (forall before rest,
         find_first "received = " (lower output) = Some (before, "38," ++ rest) ->
         exists stats,
           analyze_ping output host = Ok stats
           /\ Stats.received stats = 38 /\ Stats.lost stats = 2)
  /\ (forall before rest,
         contains "received =" (lower output) = false ->
         find_first "packets transmitted, " (lower output)
         = Some (before, "37 received," ++ rest) ->
         exists stats,
           analyze_ping output host = Ok stats
           /\ Stats.received stats = 37 /\ Stats.lost stats = 3).
Proof.
  repeat split.
  - intros Hg. rewrite analyze_ping_eq.
    now rewrite parse_received_by_markers.
  - apply analyze_ping_lost.
  - intros before rest H. rewrite analyze_ping_eq.
    rewrite (parse_received_windows _ _ _ H), count_after_windows_marker.
    eexists. split; [reflexivity|]. split; reflexivity.
  - intros before rest Hw H. rewrite analyze_ping_eq.
    rewrite (parse_received_posix _ _ _ Hw H), count_after_posix_marker.
    eexists. split; [reflexivity|]. split; reflexivity.
Qed.

Lemma received_count_by_markers_witness :
  (exists stats,
      analyze_ping "Packets: Sent = 40, Received = 38, Lost = 2 (5% loss),"
        "host" = Ok stats
      /\ Stats.received stats = 38 /\ Stats.lost stats = 2)
  /\ (exists stats,
         analyze_ping "40 packets transmitted, 37 received, 7% packet loss"
           "host" = Ok stats
         /\ Stats.received stats = 37 /\ Stats.lost stats = 3)
  /\ analyze_ping "Request timed out." "host"
     = Ok (make_stats "request timed out." 0).
Proof.
  split; [|split].
  - refine (proj1 (proj2 (proj2 (received_count_by_markers _ "host")))
              "packets: sent = 40, " " lost = 2 (5% loss)," _).
    vm_compute; reflexivity.
  - refine (proj2 (proj2 (proj2 (received_count_by_markers _ "host")))
              "40 " " 7% packet loss" _ _); vm_compute; reflexivity.
  - refine (proj1 (received_count_by_markers "Request timed out." "host") _).
    vm_compute; reflexivity.
Defined.

(** ** The round-trip-time samples *)

Fixpoint take_while (f : ascii -> bool) (s : string) : string :=
  match s with
  | EmptyString => EmptyString
  | String c s' => if f c then String c (take_while f s') else EmptyString
  end.

(** The first run of characters that are not white space, if there is one. *)
Definition first_token (s : string) : option string :=
  match take_while (fun c => negb (is_space c)) (drop_while is_space s) with
  | EmptyString => None
  | tok => Some tok
  end.

Lemma first_token_space c s :
  is_space c = true -> first_token (String c s) = first_token s.
Proof. intros H. unfold first_token. cbn [drop_while]. now rewrite H. Qed.

Lemma first_token_char c s :
  is_space c = false ->
  first_token (String c s)
  = Some (String c (take_while (fun c => negb (is_space c)) s)).
Proof.
  intros H. unfold first_token. cbn [drop_while]. rewrite H.
  cbn [take_while]. now rewrite H.
Qed.

Lemma split_ws_head s :
  nth_error (split_ws s) 0 = first_token s.
Proof.
  induction s as [|c s IH]; [reflexivity|].
  cbn [split_ws]. destruct (is_space c) eqn:Hc.
  - now rewrite first_token_space.
  - rewrite first_token_char by assumption.
    destruct s as [|c' s']; [reflexivity|].
    destruct (is_space c') eqn:Hc'.
    + cbn [nth_error take_while]. now rewrite Hc'.
    + rewrite first_token_char in IH by assumption.
      destruct (split_ws (String c' s')) as [|tok toks]; [discriminate|].
      cbn [nth_error] in IH. injection IH as ->.
      cbn [nth_error take_while]. now rewrite Hc'.
Qed.

(** The sample of a line in words: take the text after the first "time=",
    up to the next "time="; take its first run of characters that are not
    white space; delete every "ms" from it; read the rest as a float.  A
    line without "time=", without such a run, or whose text is not a float
    gives no sample. *)
Definition sample_by_claim (line : string) : option float :=
  match find_first "time=" line with
  | None => None
  | Some (_, after) =>
      match first_token (up_to "time=" after) with
      | None => None
      | Some tok =>
          match float_of_string (replace "ms" "" tok) with
          | Ok x => Some x
          | Raise _ => None
          end
      end
  end.

Definition samples_by_claim (line : string) : list float :=
  match sample_by_claim line with
  | Some x => [x]
  | None => []
  end.

Definition times_by_claim (output : string) : list float :=
  flat_map samples_by_claim (split newline output).

Lemma line_sample_by_claim line : line_sample line = samples_by_claim line.
Proof.
  unfold line_sample, samples_by_claim, sample_by_claim, contains, parse_time.
  destruct (find_first "time=" line) as [[before after]|] eqn:E;
    [|reflexivity].
  rewrite (split_second "time=" _ _ _ ltac:(discriminate) E). cbn [bind].
  unfold index. rewrite split_ws_head.
  destruct (first_token _) as [tok|]; [cbn [bind]|reflexivity].
  destruct (float_of_string _); reflexivity.
Qed.

Lemma output_times_by_claim output : output_times output = times_by_claim output.
Proof.
  unfold output_times, times_by_claim.
  induction (split newline output) as [|line lines IH]; [reflexivity|].
  simpl. now rewrite IH, line_sample_by_claim.
Qed.

(** The sample of a line as C6 words it: the text right after "time=" up to
    the next white space, without one trailing "ms", read as a float. *)
Fixpoint without_ms_suffix (tok : string) : string :=
  match tok with
  | EmptyString => EmptyString
  | String c tok' =>
      if String.eqb tok "ms" then EmptyString
      else String c (without_ms_suffix tok')
  end.

Definition sample_as_stated (line : string) : option float :=
  match find_first "time=" line with
  | None => None
  | Some (_, after) =>
      let tok := take_while (fun c => negb (is_space c)) after in
      match float_of_string (without_ms_suffix tok) with
      | Ok x => Some x
      | Raise _ => None
      end
  end.

(** C6, as the claim states it, fails: "ms" is deleted wherever it stands
    in the token, not only at its end, so the line "time=1ms2" has the
    sample 12.0 although "1ms2" is not a float. *)
Lemma ms_deleted_inside_token :
  sample_as_stated "time=1ms2" = None
  /\ exists stats,
       analyze_ping "time=1ms2" "host" = Ok stats
       /\ Stats.times stats = [S754_finite false 6755399441055744 (-49)]
       /\ float_of_string "12.0" = Ok (S754_finite false 6755399441055744 (-49)).
Proof.
  split; [vm_compute; reflexivity|].
  eexists. split; [vm_compute; reflexivity|]. split; vm_compute; reflexivity.
Qed.

(** C6, amended: the loop over the lines never raises; its samples are, in
    the order of the lines, those of the lines that hold "time=", each read
    from the first run of non-space characters after the first "time=" (cut
    at the next "time="), with every "ms" deleted; a line whose text is not
    a float is skipped and the lines after it are still read.  The line
    "64 bytes from x: time=23.4 ms" gives the one sample 23.4, the line
    "time=abc" gives none and raises nothing. *)
Theorem time_samples output host :
  scan_times (split newline (lower output)) []
  = Ok (times_by_claim (lower output))
  /\ analyze_ping output host
     = (n <- parse_received (lower output) ;;
        Ok {| Stats.times := times_by_claim (lower output);
              Stats.received := n;
              Stats.lost := PING_COUNT - n;
              Stats.error := None;
              Stats.raw_output := lower output |})
  /\ (forall lines_before lines_after,
         flat_map samples_by_claim
           (lines_before ++ ["time=abc"] ++ lines_after)
         = (flat_map samples_by_claim lines_before
            ++ flat_map samples_by_claim lines_after)%list)
  /\ (exists stats,
         analyze_ping "64 bytes from x: time=23.4 ms" host = Ok stats
         /\ Stats.times stats = [S754_finite false 6586514455029350 (-48)])
  /\ (exists stats,
         analyze_ping "time=abc" host = Ok stats /\ Stats.times stats = []).
Proof.
  split; [|split; [|split; [|split]]].
  - rewrite scan_times_total. simpl.
    now rewrite <- output_times_by_claim.
  - rewrite analyze_ping_eq. unfold make_stats.
    now rewrite output_times_by_claim.
  - intros l1 l2. now rewrite !flat_map_app.
  - eexists. split; [rewrite analyze_ping_eq; vm_compute; reflexivity|].
    reflexivity.
  - eexists. split; [rewrite analyze_ping_eq; vm_compute; reflexivity|].
    reflexivity.
Qed.

(** ** Sorting *)

Section SortProperties.
Context {A K : Type} (lt : K -> K -> bool) (key : A -> K).

(** The keys on which [lt] is a strict weak order. *)
Variable ordered : K -> Prop.
Hypothesis lt_asym :
  forall a b, ordered a -> ordered b -> lt a b = true -> lt b a = false.
Hypothesis lt_incomparable :
  forall a b c, ordered a -> ordered b -> ordered c ->
                lt a b = false -> lt b c = false -> lt a c = false.

(** [a] may stand before [b]: [b] is not smaller than [a]. *)
Definition in_order (a b : A) : Prop := lt (key b) (key a) = false.


Lemma insert_perm x l : Permutation (x :: l) (insert lt key x l).
Proof.
  induction l as [|y l IH]; simpl; [reflexivity|].
  destruct (lt (key y) (key x)); [|reflexivity].
  rewrite perm_swap. now apply perm_skip.
Qed.

Lemma sort_by_perm l : Permutation l (sort_by lt key l).
Proof.
  induction l as [|x l IH]; simpl; [constructor|].
  rewrite <- insert_perm. now apply perm_skip.
Qed.

Lemma insert_Forall (Q : A -> Prop) x l :
  Q x -> Forall Q l -> Forall Q (insert lt key x l).
Proof.
  intros Hx Hl. eapply Permutation_Forall; [apply insert_perm|].
  now constructor.
Qed.

Lemma insert_sorted x l :
  ordered (key x) -> Forall (fun y => ordered (key y)) l ->
  StronglySorted in_order l -> StronglySorted in_order (insert lt key x l).
Proof.
  intros Hx Hl Hs. induction Hs as [|y l Hs IH Hy]; simpl.
  - repeat constructor.
  - inversion Hl as [|? ? Hoy Hol]; subst.
    destruct (lt (key y) (key x)) eqn:E.
    + constructor; [now apply IH|].
      apply insert_Forall; [|assumption].
      unfold in_order. now apply lt_asym.
    + constructor; [now constructor|].
      constructor; [exact E|].
      rewrite Forall_forall in *. intros z Hz. unfold in_order in *.
      apply (lt_incomparable _ (key y)); auto.
Qed.

Lemma sort_by_sorted l :
  Forall (fun y => ordered (key y)) l ->
  StronglySorted in_order (sort_by lt key l).
Proof.
  induction 1 as [|x l Hx Hl IH]; simpl; [constructor|].
  apply insert_sorted; auto.
  eapply Permutation_Forall; [apply sort_by_perm|assumption].
Qed.



End SortProperties.

(** *** The order of the sort keys *)

(** A rank that orders the floats as [SFcompare] does. *)
Definition float_rank (x : float) : Z * Z * Z :=
  match x with
  | S754_nan => (3, 0, 0)
  | S754_infinity true => (-2, 0, 0)
  | S754_infinity false => (2, 0, 0)
  | S754_zero _ => (0, 0, 0)
  | S754_finite false m e => (1, e, Zpos m)
  | S754_finite true m e => (-1, - e, Zneg m)
  end.

Definition lex3 (a b : Z * Z * Z) : Prop :=
  let '(a1, a2, a3) := a in
  let '(b1, b2, b3) := b in
  a1 < b1 \/ (a1 = b1 /\ (a2 < b2 \/ (a2 = b2 /\ a3 < b3))).

Lemma float_lt_rank x y :
  x <> S754_nan -> y <> S754_nan ->
  SFcompare x y = Some Lt <-> lex3 (float_rank x) (float_rank y).
Proof.
  intros Hx Hy.
  destruct x as [[]|[]| |[] m e], y as [[]|[]| |[] m' e']; try congruence;
    cbn [SFcompare float_rank lex3];
    try (split; intros H; try reflexivity; try discriminate; lia);
    change (Pos.compare_cont Eq m m') with (Pos.compare m m');
    destruct (Z.compare_spec e e'), (Pos.compare_spec m m'); cbn [CompOpp];
    split; intros Hlt; try reflexivity; try discriminate; lia.
Qed.

Lemma tuple_lt_float b1 x b2 y :
  key_lt (b1, Float x) (b2, Float y)
  = if Bool.eqb b1 b2
    then match SFcompare x y with Some Lt => true | _ => false end
    else (negb b1 && b2)%bool.
Proof.
  unfold key_lt, PyNum.eq, PyNum.lt. cbn [fst snd PyNum.compare].
  destruct (Bool.eqb b1 b2); [|reflexivity].
  now destruct (SFcompare x y) as [[]|].
Qed.

(** The keys without NaN. *)
Definition key_ordered (k : bool * number) : Prop :=
  match snd k with
  | Float x => x <> S754_nan
  | Int _ => False
  end.

Definition key_rank (k : bool * number) : Z * (Z * Z * Z) :=
  (Z.b2z (fst k),
   match snd k with
   | Float x => float_rank x
   | Int _ => (0, 0, 0)
   end).

Definition rank_lt (a b : Z * (Z * Z * Z)) : Prop :=
  fst a < fst b \/ (fst a = fst b /\ lex3 (snd a) (snd b)).

Lemma key_lt_rank a b :
  key_ordered a -> key_ordered b ->
  key_lt a b = true <-> rank_lt (key_rank a) (key_rank b).
Proof.
  destruct a as [b1 [n|x]], b as [b2 [n'|y]]; cbn [key_ordered snd];
    try contradiction.
  intros Hx Hy. rewrite tuple_lt_float.
  unfold rank_lt, key_rank. cbn [fst snd].
  pose proof (float_lt_rank x y Hx Hy) as Hr.
  destruct b1, b2; cbn [Bool.eqb Z.b2z negb andb];
    try (split; intros H; try reflexivity; try discriminate; lia).
  - split.
    + intros H. right. split; [reflexivity|]. apply Hr.
      now destruct (SFcompare x y) as [[]|].
    + intros [H|[_ H]]; [lia|]. apply Hr in H. now rewrite H.
  - split.
    + intros H. right. split; [reflexivity|]. apply Hr.
      now destruct (SFcompare x y) as [[]|].
    + intros [H|[_ H]]; [lia|]. apply Hr in H. now rewrite H.
Qed.

Lemma rank_lt_asym a b : rank_lt a b -> ~ rank_lt b a.
Proof.
  destruct a as [a0 [[a1 a2] a3]], b as [b0 [[b1 b2] b3]].
  unfold rank_lt, lex3; cbn [fst snd]. lia.
Qed.

Lemma rank_lt_incomparable a b c :
  ~ rank_lt a b -> ~ rank_lt b c -> ~ rank_lt a c.
Proof.
  destruct a as [a0 [[a1 a2] a3]], b as [b0 [[b1 b2] b3]],
           c as [c0 [[c1 c2] c3]].
  unfold rank_lt, lex3; cbn [fst snd]. lia.
Qed.

Lemma key_lt_asym a b :
  key_ordered a -> key_ordered b -> key_lt a b = true -> key_lt b a = false.
Proof.
  intros Ha Hb H. apply (key_lt_rank a b Ha Hb) in H.
  apply not_true_is_false. intros H'. apply (key_lt_rank b a Hb Ha) in H'.
  now apply (rank_lt_asym _ _ H).
Qed.

Lemma key_lt_incomparable a b c :
  key_ordered a -> key_ordered b -> key_ordered c ->
  key_lt a b = false -> key_lt b c = false -> key_lt a c = false.
Proof.
  intros Ha Hb Hc Hab Hbc. apply not_true_is_false. intros Hac.
  apply (key_lt_rank a c Ha Hc) in Hac. revert Hac.
  apply (rank_lt_incomparable _ (key_rank b)).
  - intros H. apply (key_lt_rank a b Ha Hb) in H. congruence.
  - intros H. apply (key_lt_rank b c Hb Hc) in H. congruence.
Qed.

(** *** The order of the report *)

(** The average of a result is the [int] 0 or a float other than NaN. *)
Definition average_comparable (r : HostResult) : Prop :=
  match average_ping r with
  | Int n => n = 0
  | Float x => x <> S754_nan
  end.

Definition is_success (r : HostResult) : bool :=
  String.eqb (status r) "Success".

(** The average used for sorting: positive infinity when the average is
    absent or zero. *)
Definition effective_ping (r : HostResult) : number :=
  if truthy (average_ping r) then average_ping r else Float pos_inf.


Lemma sort_key_eq r : sort_key r = (negb (is_success r), effective_ping r).
Proof. reflexivity. Qed.

Lemma sort_key_ordered r : average_comparable r -> key_ordered (sort_key r).
Proof.
  unfold average_comparable, key_ordered. rewrite sort_key_eq.
  unfold effective_ping. cbn [snd].
  destruct (average_ping r) as [n|x].
  - intros ->. cbn. discriminate.
  - intros Hx. destruct (truthy (Float x)); [exact Hx|discriminate].
Qed.








(** ** The received count has no bound *)

Lemma parse_received_guard_mismatch output :
  guards_agree output = false ->
  parse_received output = Raise (IndexError "list index out of range").
Proof.
  unfold guards_agree, parse_received.
  destruct (contains "received =" output).
  - intros H. apply not_contains_find in H.
    now rewrite (split_no_second _ _ H).
  - destruct (contains "packets transmitted" output); [|discriminate].
    intros H. apply not_contains_find in H.
    now rewrite (split_no_second _ _ H).
Qed.

(** The value of a run of decimal digits read from the left. *)
Fixpoint uint_value (acc : Z) (d : Decimal.uint) : Z :=
  match d with
  | Decimal.Nil => acc
  | Decimal.D0 l => uint_value (10 * acc + 0) l
  | Decimal.D1 l => uint_value (10 * acc + 1) l
  | Decimal.D2 l => uint_value (10 * acc + 2) l
  | Decimal.D3 l => uint_value (10 * acc + 3) l
  | Decimal.D4 l => uint_value (10 * acc + 4) l
  | Decimal.D5 l => uint_value (10 * acc + 5) l
  | Decimal.D6 l => uint_value (10 * acc + 6) l
  | Decimal.D7 l => uint_value (10 * acc + 7) l
  | Decimal.D8 l => uint_value (10 * acc + 8) l
  | Decimal.D9 l => uint_value (10 * acc + 9) l
  end.

Fixpoint all_chars (f : ascii -> bool) (s : string) : bool :=
  match s with
  | EmptyString => true
  | String c s' => (f c && all_chars f s')%bool
  end.

Lemma scan_digits_uint d acc count :
  scan_digits false acc count (NilEmpty.string_of_uint d)
  = Some (uint_value acc d, (count + Decimal.nb_digits d)%nat, "").
Proof.
  revert acc count; induction d; intros acc count;
    cbn [NilEmpty.string_of_uint Decimal.nb_digits uint_value];
    [now rewrite Nat.add_0_r| ..];
    cbn [scan_digits]; rewrite IHd, Nat.add_succ_r; reflexivity.
Qed.

Lemma uint_value_acc d acc :
  uint_value (Zpos acc) d = Zpos (Pos.of_uint_acc d acc).
Proof.
  revert acc; induction d; intros acc; cbn [uint_value Pos.of_uint_acc];
    [reflexivity| ..]; rewrite <- IHd; f_equal; lia.
Qed.

Lemma uint_value_zero d : uint_value 0 d = Z.of_N (Pos.of_uint d).
Proof.
  induction d; cbn [uint_value Pos.of_uint]; [reflexivity|exact IHd| ..];
    apply (uint_value_acc d).
Qed.

Lemma length_string_of_uint d :
  String.length (NilEmpty.string_of_uint d) = Decimal.nb_digits d.
Proof. induction d; simpl; congruence. Qed.

Lemma digits_of_uint d : all_chars is_digit (NilEmpty.string_of_uint d) = true.
Proof. induction d; simpl; auto. Qed.

(** [int] reads back a run of digits, with or without a minus sign. *)
Lemma int_of_digits (neg : bool) d :
  d <> Decimal.Nil ->
  (Decimal.nb_digits d <= int_max_str_digits)%nat ->
  int ((if neg then "-" else "") ++ NilEmpty.string_of_uint d)
  = Ok (if neg then - uint_value 0 d else uint_value 0 d).
Proof.
  intros Hd Hn.
  assert (Hscan := scan_digits_uint d 0 0). cbn [Nat.add] in Hscan.
  apply Nat.ltb_ge in Hn.
  destruct d; [contradiction| ..]; destruct neg;
    cbn [NilEmpty.string_of_uint] in *; unfold int;
    cbn [append drop_while split_sign is_literal_space is_c_space in_range
         code N_of_ascii N_of_digits N.leb N.eqb N.compare N.add N.mul
         Pos.compare Pos.compare_cont Pos.eqb Pos.add Pos.mul Pos.succ
         orb andb];
    rewrite Hscan, Hn; reflexivity.
Qed.

Lemma int_of_str n :
  (String.length (str_of_int (Z.abs n)) <= int_max_str_digits)%nat ->
  int (str_of_int n) = Ok n.
Proof.
  destruct n as [|p|p]; [intros _; vm_compute; reflexivity| |];
    unfold str_of_int; cbn [Z.abs Z.to_int NilZero.string_of_int];
    pose proof (DecimalPos.Unsigned.of_to p) as Hp;
    pose proof (uint_value_zero (Pos.to_uint p)) as Hv;
    rewrite Hp in Hv; cbn [Z.of_N] in Hv;
    (assert (Hd : Pos.to_uint p <> Decimal.Nil)
      by (intros E; rewrite E in Hp; discriminate));
    unfold NilZero.string_of_uint;
    destruct (Pos.to_uint p) eqn:E; try contradiction; rewrite <- E in *;
    rewrite length_string_of_uint; intros Hn.
  all: first
         [ pose proof (int_of_digits false _ Hd Hn) as Hi; cbn [append] in Hi;
           rewrite Hi, Hv; reflexivity
         | pose proof (int_of_digits true _ Hd Hn) as Hi; cbn [append] in Hi;
           rewrite Hi, Hv; reflexivity ].
Qed.

Lemma lower_digits s : all_chars is_digit s = true -> lower s = s.
Proof.
  induction s as [|c s IH]; [reflexivity|].
  cbn [all_chars lower]. intros H. apply andb_prop in H as [Hc Hs].
  rewrite (IH Hs). f_equal.
  destruct c as [[] [] [] [] [] [] [] []]; try discriminate; reflexivity.
Qed.

Lemma no_letter_in_digits c s :
  is_digit c = false -> all_chars is_digit s = true -> has_char c s = false.
Proof.
  intros Hc. induction s as [|a s IH]; [reflexivity|].
  cbn [all_chars has_char]. intros H. apply andb_prop in H as [Ha Hs].
  rewrite (IH Hs), orb_false_r.
  destruct (Ascii.eqb_spec a c) as [->|]; congruence.
Qed.

Lemma str_of_int_shape n :
  exists sign digits,
    str_of_int n = sign ++ digits
    /\ (sign = "" \/ sign = "-")
    /\ all_chars is_digit digits = true.
Proof.
  unfold str_of_int, NilZero.string_of_int, NilZero.string_of_uint.
  destruct (Z.to_int n) as [d|d].
  - exists "", (match d with
                | Decimal.Nil => "0"
                | _ => NilEmpty.string_of_uint d
                end).
    repeat split; auto.
    destruct d; try reflexivity; apply (digits_of_uint (_ d)).
  - exists "-", (match d with
                 | Decimal.Nil => "0"
                 | _ => NilEmpty.string_of_uint d
                 end).
    repeat split; auto.
    destruct d; try reflexivity; apply (digits_of_uint (_ d)).
Qed.

Lemma lower_app a b : lower (a ++ b) = lower a ++ lower b.
Proof. induction a; simpl; congruence. Qed.

Lemma has_char_append c a b :
  has_char c (a ++ b) = (has_char c a || has_char c b)%bool.
Proof.
  induction a as [|x a IH]; [reflexivity|].
  simpl. now rewrite IH, orb_assoc.
Qed.

Lemma lower_str_of_int n : lower (str_of_int n) = str_of_int n.
Proof.
  destruct (str_of_int_shape n) as (sign & digits & -> & Hs & Hd).
  rewrite lower_app, (lower_digits _ Hd). now destruct Hs as [->| ->].
Qed.

Lemma no_letter_in_str_of_int c n :
  is_digit c = false -> c <> "-"%char -> has_char c (str_of_int n) = false.
Proof.
  intros Hc Hm.
  destruct (str_of_int_shape n) as (sign & digits & -> & Hs & Hd).
  rewrite has_char_append, (no_letter_in_digits _ _ Hc Hd), orb_false_r.
  destruct Hs as [->| ->]; [reflexivity|].
  cbn [has_char]. rewrite orb_false_r. now apply Ascii.eqb_neq.
Qed.

Lemma find_first_without_head c sep s :
  has_char c s = false -> find_first (String c sep) s = None.
Proof.
  induction s as [|a s IH]; [reflexivity|].
  cbn [has_char]. intros H. apply orb_false_iff in H as [Ha Hs].
  cbn [find_first strip_prefix]. rewrite Ascii.eqb_sym, Ha.
  now rewrite (IH Hs).
Qed.

Lemma find_first_char c a b :
  has_char c a = false ->
  find_first (String c "") (a ++ String c b) = Some (a, b).
Proof.
  induction a as [|x a IH]; cbn [has_char append].
  - intros _. cbn [find_first strip_prefix]. now rewrite Ascii.eqb_refl.
  - intros H. apply orb_false_iff in H as [Hx Ha].
    cbn [find_first strip_prefix]. rewrite Ascii.eqb_sym, Hx.
    now rewrite (IH Ha).
Qed.

Lemma received_written n :
  (String.length (str_of_int (Z.abs n)) <= int_max_str_digits)%nat ->
  parse_received (lower ("received = " ++ str_of_int n ++ ",")) = Ok n.
Proof.
  intros Hn. rewrite !lower_app, lower_str_of_int.
  assert (Hr : has_char "r" (str_of_int n ++ ",") = false).
  { rewrite has_char_append, no_letter_in_str_of_int by (reflexivity || discriminate).
    reflexivity. }
  assert (Hc : has_char "," (str_of_int n) = false)
    by (apply no_letter_in_str_of_int; [reflexivity|discriminate]).
  rewrite (parse_received_windows _ "" (str_of_int n ++ ",")) by reflexivity.
  unfold up_to at 2.
  rewrite (find_first_without_head "r" "eceived = " _ Hr).
  unfold up_to. change "," with (String "," "") at 1.
  rewrite (find_first_char "," _ "" Hc). now apply int_of_str.
Qed.

(** C8, amended: whenever [analyze_ping] returns, the received count is the
    integer that the text holds after its marker (0 when the text holds no
    marker), taken as it is, and the lost count is 40 minus it, which is
    non-negative exactly when the received count is at most 40.  There is
    no range check: every integer, of either sign, that is written after the
    marker with at most 4300 digits is returned as the received count. *)
Theorem received_is_written_integer output host :
  (forall stats,
      analyze_ping output host = Ok stats ->
      received_by_markers (lower output) = Ok (Stats.received stats)
      /\ Stats.lost stats = 40 - Stats.received stats
      /\ (0 <= Stats.lost stats <-> Stats.received stats <= 40)
      /\ (find_first "received = " (lower output) = None ->
          find_first "packets transmitted, " (lower output) = None ->
          Stats.received stats = 0))
  /\ (forall n,
         (String.length (str_of_int (Z.abs n)) <= int_max_str_digits)%nat ->
         exists stats,
           analyze_ping ("received = " ++ str_of_int n ++ ",") host = Ok stats
           /\ Stats.received stats = n
           /\ Stats.lost stats = 40 - n).
Proof.
  split.
  - intros stats H.
    assert (Hl := analyze_ping_lost _ _ _ H). unfold PING_COUNT in Hl.
    rewrite analyze_ping_eq in H.
    destruct (guards_agree (lower output)) eqn:G.
    + rewrite (parse_received_by_markers _ G) in H.
      destruct (received_by_markers (lower output)) as [n|] eqn:E;
        [|discriminate].
      injection H as <-. cbn [make_stats Stats.received] in *.
      split; [reflexivity|]. split; [exact Hl|]. split; [lia|].
      intros H1 H2. unfold received_by_markers in E.
      rewrite H1, H2 in E. congruence.
    + rewrite (parse_received_guard_mismatch _ G) in H. discriminate.
  - intros n Hn. rewrite analyze_ping_eq, (received_written n Hn).
    eexists. split; [reflexivity|]. split; reflexivity.
Qed.

Lemma received_is_written_integer_witness :
  (exists stats,
      analyze_ping "received = 41," "host" = Ok stats
      /\ Stats.received stats = 41 /\ Stats.lost stats = 40 - 41)
  /\ (exists stats,
         analyze_ping "received = -7," "host" = Ok stats
         /\ Stats.received stats = -7 /\ Stats.lost stats = 40 - -7)
  /\ received_by_markers "reply from x" = Ok 0.
Proof.
  split; [|split].
  - refine (proj2 (received_is_written_integer "" "host") 41 _).
    apply Nat.leb_le. vm_compute. reflexivity.
  - refine (proj2 (received_is_written_integer "" "host") (-7) _).
    apply Nat.leb_le. vm_compute. reflexivity.
  - refine (proj1 (proj1 (received_is_written_integer "Reply from x" "host")
                     (make_stats "reply from x" 0) _)).
    vm_compute; reflexivity.
Defined.

(** * The rest of the script: input files and report values *)

(** ** More of the runtime *)

(** [s.strip()] *)
Definition strip (s : string) : string :=
  rstrip is_space (drop_while is_space s).

(** [s.endswith(suffix)] *)
Fixpoint endswith (suffix s : string) : bool :=
  (String.eqb s suffix
   || match s with
      | EmptyString => false
      | String _ s' => endswith suffix s'
      end)%bool.

(** The text before and the text after the last occurrence of the
    character [c]. *)
Fixpoint rpartition (c : ascii) (s : string) : option (string * string) :=
  match s with
  | EmptyString => None
  | String a s' =>
      match rpartition c s' with
      | Some (before, after) => Some (String a before, after)
      | None => if Ascii.eqb a c then Some (EmptyString, s') else None
      end
  end.

Fixpoint all_dots (s : string) : bool :=
  match s with
  | EmptyString => true
  | String a s' => (Ascii.eqb a "." && all_dots s')%bool
  end.

(** [os.path.splitext(p)] with the separator [/]: the extension starts at
    the last dot of the last component, unless only dots stand before it. *)
Definition splitext (p : string) : string * string :=
  let '(dir, base) :=
    match rpartition "/" p with
    | Some (d, b) => (d ++ "/", b)
    | None => (EmptyString, p)
    end in
  match rpartition "." base with
  | Some (stem, ext) =>
      if all_dots stem then (p, EmptyString)
      else (dir ++ stem, String "." ext)
  | None => (p, EmptyString)
  end.

(** [format(x, ".1f")] *)
Definition format_1f (x : float) : string :=
  match x with
  | S754_nan => "nan"
  | S754_infinity neg => if neg then "-inf" else "inf"
  | S754_zero neg => if neg then "-0.0" else "0.0"
  | S754_finite neg m e =>
      let tenths :=
        match e with
        | Zneg k => div_half_even (Zpos m * 10) (Zpos (Pos.pow 2 k))
        | _ => Zpos m * 2 ^ e * 10
        end in
      (if neg then "-" else "")
        ++ str_of_int (tenths / 10) ++ "." ++ str_of_int (tenths mod 10)
  end.

(** [format(v, ".2f")] for an [int] or a [float]: an [int] is first made a
    [float]. *)
Definition format_number_2f (v : number) : result string :=
  match v with
  | Float x => Ok (format_2f x)
  | Int n =>
      let x := float_of_int n in
      if is_finite x then Ok (format_2f x)
      else Raise (OverflowError "int too large to convert to float")
  end.

(** ** Reading the server files *)

Definition LF : ascii := ascii_of_N 10.
Definition CR : ascii := ascii_of_N 13.

(** The characters of a file as [open(path, 'r')] hands them over: a
    carriage return, together with the line feed that may follow it, is read
    as one line feed. *)
Fixpoint universal_newlines (content : string) : string :=
  match content with
  | EmptyString => EmptyString
  | String c rest =>
      if Ascii.eqb c CR then
        String LF
          match rest with
          | EmptyString => EmptyString
          | String c' rest' =>
              if Ascii.eqb c' LF then universal_newlines rest'
              else universal_newlines rest
          end
      else String c (universal_newlines rest)
  end.

(** The lines of a text as iteration yields them: each with its line feed,
    the last one possibly without. *)
Fixpoint lines (text : string) : list string :=
  match text with
  | EmptyString => []
  | String c rest =>
      if Ascii.eqb c LF then newline :: lines rest
      else
        match lines rest with
        | [] => [String c EmptyString]
        | line :: more => String c line :: more
        end
  end.

(** [for line in f], for a file [f] with the characters [content]. *)
Definition file_lines (content : string) : list string :=
  lines (universal_newlines content).

(** [[line.strip() for line in f if line.strip()]] *)
Definition stripped_lines (ls : list string) : list string :=
  map strip (filter (fun line => negb (String.eqb (strip line) "")) ls).

Definition read_servers (content : string) : list string :=
  stripped_lines (file_lines content).

(** What a path names: nothing, something that cannot be opened or read as
    text (opening or reading it raises), or a file with its characters as
    they stand in it, before any translation of line ends. *)
Inductive file_state : Type :=
| Missing
| Unreadable (e : exn)
| Holds (content : string).

Definition file_system : Type := string -> file_state.

Definition validate_server_file (files : file_system) (file_path : string)
  : result bool :=
  match files file_path with
  | Missing => Ok false
  | Unreadable e => Raise e
  | Holds content =>
      match read_servers content with
      | [] => Ok false
      | _ :: _ => Ok true
      end
  end.

(** ** The values of the report *)

(** [create_excel_report] hands these values to the workbook; what the
    workbook does with a value, and whether it takes it, belongs to the
    library and is not part of this development. *)

Definition good_fill : string := "C6EFCE".
Definition bad_fill : string := "FFC7CE".

(** Line 129: the value for the column "Packet Loss %". *)
Definition packet_loss_value (r : HostResult) : string :=
  if negb (contains "Error" (status r))
  then format_1f (packet_loss r) ++ "%"
  else "N/A".

(** Line 130: the value for the column "Avg Ping (ms)". *)
Definition average_ping_value (r : HostResult) : result string :=
  if truthy (average_ping r) then format_number_2f (average_ping r)
  else Ok "N/A".

(** Line 134: the fill of the row. *)
Definition row_fill (r : HostResult) : string :=
  if String.eqb (status r) "Success" then good_fill else bad_fill.

(** Lines 199-200 of [main]: the report prefix of a file of the servers
    directory, for the files that are processed. *)
Definition report_prefix (filename : string) : option string :=
  if endswith ".txt" filename then Some (fst (splitext filename)) else None.

(** ** Failures of the parser *)

Lemma received_by_markers_raises output e :
  received_by_markers output = Raise e ->
  (exists s, e = invalid_int s) \/ (exists n, e = too_many_digits n).
Proof.
  unfold received_by_markers.
  destruct (find_first "received = " output) as [[b a]|].
  - intros H. destruct (int_raises _ _ H) as [->|[n ->]]; eauto.
  - destruct (find_first "packets transmitted, " output) as [[b a]|];
      [|discriminate].
    intros H. destruct (int_raises _ _ H) as [->|[n ->]]; eauto.
Qed.

(** X1: [analyze_ping] raises [IndexError] exactly on the outputs that hold
    "received =" without "received = " or, failing "received =", hold
    "packets transmitted" without "packets transmitted, "; every other
    failure is the [ValueError] of [int] on the text after the marker. *)
Theorem analyze_ping_failures output host :
  (guards_agree (lower output) = false
   <-> analyze_ping output host = Raise (IndexError "list index out of range"))
  /\ (forall e,
         analyze_ping output host = Raise e ->
         e = IndexError "list index out of range"
         \/ (exists s, e = invalid_int s)
         \/ (exists n, e = too_many_digits n)).
Proof.
  rewrite analyze_ping_eq. split.
  - split.
    + intros H. now rewrite (parse_received_guard_mismatch _ H).
    + intros H. destruct (guards_agree (lower output)) eqn:G; [|reflexivity].
      rewrite (parse_received_by_markers _ G) in H.
      destruct (received_by_markers (lower output)) as [n|e] eqn:E;
        [discriminate|].
      injection H as ->.
      destruct (received_by_markers_raises _ _ E) as [[s Hs]|[n Hn]];
        discriminate.
  - intros e H.
    destruct (parse_received (lower output)) as [n|e'] eqn:E; [discriminate|].
    injection H as <-. now apply parse_received_raises in E.
Qed.

Lemma lower_char_idempotent c : lower_char (lower_char c) = lower_char c.
Proof. destruct c as [[] [] [] [] [] [] [] []]; reflexivity. Qed.

Lemma lower_idempotent s : lower (lower s) = lower s.
Proof.
  induction s as [|c s IH]; [reflexivity|].
  simpl. now rewrite IH, lower_char_idempotent.
Qed.

(** X2: [analyze_ping] reads its output without regard to letter case and makes
    no use of the host: two outputs that differ only in case give the same
    statistics, and so does an output already in lower case. *)
Theorem analyze_ping_ignores_case o1 o2 h1 h2 :
  lower o1 = lower o2 ->
  analyze_ping o1 h1 = analyze_ping o2 h2
  /\ analyze_ping (lower o1) h1 = analyze_ping o1 h1.
Proof.
  intros H. rewrite !analyze_ping_eq, lower_idempotent, H. split; reflexivity.
Qed.

Lemma analyze_ping_ignores_case_witness :
  analyze_ping "Packets: Sent = 40, RECEIVED = 38," "a"
  = analyze_ping "packets: sent = 40, received = 38," "b".
Proof.
  refine (proj1 (analyze_ping_ignores_case _ _ "a" "b" _)).
  vm_compute; reflexivity.
Defined.

(** ** More about one host result *)

(** X3: when the command cannot be run, the result is the error record whose
    reason is the message of the operating system, unchanged. *)
Theorem os_failure_reported e host msg :
  os_run e (ping_command e host) = Fails msg ->
  ping_host e host = error_result host msg
  /\ status (ping_host e host) = "Error: " ++ msg.
Proof.
  intros H. unfold ping_host, ping_host_try, execute_ping, subprocess_run.
  rewrite H. split; reflexivity.
Qed.

Lemma os_failure_reported_witness :
  let e := {| platform_system := "Windows";
              os_run := fun _ => Fails "[WinError 2] The system cannot find the file specified";
              clock_start := S754_zero false;
              clock_end := S754_zero false |} in
  status (ping_host e "host")
  = "Error: [WinError 2] The system cannot find the file specified".
Proof.
  intros e.
  exact (proj2 (os_failure_reported e "host"
                  "[WinError 2] The system cannot find the file specified"
                  eq_refl)).
Defined.

Lemma success_result_time e host cp r :
  success_result e host cp = Ok r ->
  response_time r = format_2f (fsub (clock_end e) (clock_start e)) ++ "s".
Proof.
  unfold success_result.
  destruct (analyze_ping _ _) as [stats|]; [cbn [bind]|discriminate].
  destruct (true_div _ _) as [ratio|]; [cbn [bind]|discriminate].
  destruct (Stats.times stats) as [|t ts]; cbn [bind].
  - now intros [= <-].
  - destruct (mean (t :: ts)) as [x|]; [cbn [bind]|discriminate].
    now intros [= <-].
Qed.

Lemma not_na_with_suffix (a : string) (c : ascii) :
  c <> "A"%char -> a ++ String c "" <> "N/A".
Proof.
  intros Hc. destruct a as [|a1 [|a2 [|a3 a]]]; simpl; try discriminate.
  - intros [= _ _ H]. now apply Hc.
  - destruct a; discriminate.
Qed.

(** X4: every result names the host it was asked about; its response time is
    "N/A" exactly when there was a fault, and is otherwise the elapsed time
    with two decimals and the unit; a faulted result has nothing received,
    40 lost, a loss of 100.0 and the average 0. *)
Theorem host_result_shape e host :
  let r := ping_host e host in
  server r = host
  /\ (response_time r = "N/A" <-> probe_fault e host = true)
  /\ (probe_fault e host = false ->
      response_time r
      = format_2f (fsub (clock_end e) (clock_start e)) ++ "s")
  /\ (probe_fault e host = true ->
      received r = 0 /\ lost r = 40
      /\ packet_loss r = float_lit "100.0" /\ average_ping r = Int 0).
Proof.
  intros r; subst r.
  destruct (ping_host_inv e host) as [[Hf [reason ->]]|[Hf (cp & _ & _ & H)]];
    rewrite Hf.
  - simpl. repeat split; congruence.
  - pose proof (success_result_time _ _ _ _ H) as Ht.
    apply success_result_inv in H.
    destruct H as (stats & ratio & _ & _ & Hs & _).
    rewrite Ht. repeat split; try congruence.
    intros Hna. exfalso. revert Hna. now apply not_na_with_suffix.
Qed.

Lemma host_result_shape_witness :
  let e := exited 0 ("40 packets transmitted, 40 received," ++ newline
                     ++ "64 bytes from x: time=12.5 ms") in
  server (ping_host e "host") = "host"
  /\ response_time (ping_host e "host") = "0.00s"
  /\ packet_loss (ping_host (exited 1 "") "host") = float_lit "100.0".
Proof.
  intros e.
  destruct (host_result_shape e "host") as (H1 & _ & H2 & _).
  destruct (host_result_shape (exited 1 "") "host") as (_ & _ & _ & H3).
  split; [exact H1|]. split.
  - rewrite H2 by (vm_compute; reflexivity). vm_compute; reflexivity.
  - apply H3. vm_compute; reflexivity.
Defined.

(** ** More about the batch *)

Lemma ping_host_server e host : server (ping_host e host) = host.
Proof.
  destruct (ping_host_inv e host) as [[_ [reason ->]]|[_ (cp & _ & _ & H)]];
    [reflexivity|].
  apply success_result_inv in H.
  now destruct H as (stats & ratio & _ & _ & Hs & _).
Qed.

(** X5: sorting neither drops nor repeats a result, whatever the averages are:
    the sorted list is a rearrangement of the results of the probes, it has
    one result per probe, and its server names are those of the probes. *)
Theorem batch_keeps_every_probe completed :
  Permutation (map (fun p => ping_host (fst p) (snd p)) completed)
              (batch_results completed)
  /\ Permutation (map snd completed) (map server (batch_results completed))
  /\ List.length (batch_results completed) = List.length completed.
Proof.
  assert (Hp : Permutation
                 (map (fun p => ping_host (fst p) (snd p)) completed)
                 (batch_results completed)).
  { unfold batch_results, sort_results. apply sort_by_perm. }
  split; [exact Hp|]. split.
  - rewrite <- (Permutation_map server Hp), map_map.
    erewrite map_ext; [reflexivity|].
    intros [e host]. simpl. now rewrite ping_host_server.
  - rewrite <- (Permutation_length Hp). apply length_map.
Qed.

Section SortedInput.
Context {A K : Type} (lt : K -> K -> bool) (key : A -> K).

(** A list that is already in order is left as it is. *)
Lemma sort_by_in_order l :
  StronglySorted (in_order lt key) l -> sort_by lt key l = l.
Proof.
  induction 1 as [|x l Hs IH Hx]; [reflexivity|].
  cbn [sort_by fold_right]. fold (sort_by lt key l). rewrite IH.
  destruct l as [|y l']; [reflexivity|].
  cbn [insert]. apply Forall_inv in Hx. unfold in_order in Hx.
  now rewrite Hx.
Qed.
End SortedInput.

(** X6: sorting a sorted result list again changes nothing, as long as no
    average is NaN. *)
Theorem sort_results_idempotent results :
  Forall average_comparable results ->
  sort_results (sort_results results) = sort_results results.
Proof.
  intros Hok. unfold sort_results. apply sort_by_in_order.
  apply (sort_by_sorted key_lt sort_key key_ordered);
    [exact key_lt_asym|exact key_lt_incomparable|].
  eapply Forall_impl; [|exact Hok]. apply sort_key_ordered.
Qed.

Lemma sort_results_idempotent_witness :
  let rs := [error_result "c" "x";
             ping_host (exited 0 ("received = 40," ++ newline ++ "time=50 ms")) "a";
             ping_host (exited 0 ("received = 4," ++ newline ++ "time=10 ms")) "b"] in
  sort_results (sort_results rs) = sort_results rs.
Proof.
  intros rs. apply sort_results_idempotent.
  repeat constructor; vm_compute; congruence.
Defined.

Lemma fault_sort_key e host :
  probe_fault e host = true ->
  sort_key (ping_host e host) = (true, Float pos_inf).
Proof.
  intros Hf.
  destruct (ping_host_inv e host) as [[_ [reason ->]]|[Hn _]]; [|congruence].
  reflexivity.
Qed.

(** X7: results with equal keys stay in the order in which the probes
    completed: a batch in which every probe faulted comes out of the sort
    unchanged, so its order in the report is the completion order. *)
Theorem faulted_batch_in_completion_order completed :
  Forall (fun p => probe_fault (fst p) (snd p) = true) completed ->
  batch_results completed
  = map (fun p => ping_host (fst p) (snd p)) completed.
Proof.
  intros Hf. unfold batch_results, sort_results. apply sort_by_in_order.
  assert (Hk : Forall (fun r => sort_key r = (true, Float pos_inf))
                 (map (fun p => ping_host (fst p) (snd p)) completed)).
  { induction Hf as [|[e host] l Hp Hl IH]; constructor; [|exact IH].
    now apply fault_sort_key. }
  induction Hk as [|r l Hr Hl IH]; constructor; [exact IH|].
  eapply Forall_impl; [|exact Hl].
  intros r' Hr'. unfold in_order. now rewrite Hr, Hr'.
Qed.

Lemma faulted_batch_in_completion_order_witness :
  let down := exited 1 "" in
  batch_results [(down, "b"); (down, "a")]
  = [ping_host down "b"; ping_host down "a"].
Proof.
  intros down.
  apply (faulted_batch_in_completion_order [(down, "b"); (down, "a")]).
  repeat constructor.
Defined.

(** ** The values of the report *)

Lemma str_of_int_head n :
  exists c rest, str_of_int n = String c rest /\ c <> "N"%char.
Proof.
  unfold str_of_int.
  destruct (Z.to_int n) as [[]|[]]; cbn; do 2 eexists; split;
    try reflexivity; discriminate.
Qed.

Lemma format_2f_not_na x : format_2f x <> "N/A".
Proof.
  destruct x as [[]|[]| |[] m e]; cbn [format_2f]; try discriminate.
  cbn [append].
  match goal with
  | |- context [str_of_int ?q ++ _] =>
      destruct (str_of_int_head q) as (c & rest & -> & Hc)
  end.
  cbn [append]. intros [= H]. now apply Hc.
Qed.

Lemma ping_host_average e host :
  average_ping (ping_host e host) = Int 0
  \/ exists x, average_ping (ping_host e host) = Float x.
Proof.
  destruct (ping_host_inv e host) as [[_ [reason ->]]|[_ (cp & _ & _ & H)]];
    [now left|].
  apply success_result_inv in H.
  now destruct H as (stats & ratio & _ & _ & _ & _ & _ & _ & _ & Ha & _).
Qed.

Lemma float_truthy_zero x :
  float_truthy x = false <-> exists s, x = S754_zero s.
Proof.
  destruct x as [s|s| |s m e]; cbn; split; try discriminate; eauto;
    intros [s' H]; discriminate.
Qed.

(** X8: the values that lines 129, 130 and 134 compute for a result of
    [ping_host].  The packet loss value is "N/A" exactly when there was a
    fault, and the loss with one decimal and a percent sign otherwise.  The
    average value is always computed: it is "N/A" when the average is the
    [int] 0 or a float zero, and the average with two decimals, which is
    never "N/A", otherwise.  The fill is the good one exactly when the
    status is "Success" and the bad one otherwise, so after a fault the
    fill is the bad one and the average value is "N/A". *)
Theorem report_values_of_result e host :
  let r := ping_host e host in
  (packet_loss_value r = "N/A" <-> probe_fault e host = true)
  /\ (probe_fault e host = false ->
      packet_loss_value r = format_1f (packet_loss r) ++ "%")
  /\ (exists average, average_ping_value r = Ok average)
  /\ (average_ping r = Int 0 \/ (exists s, average_ping r = Float (S754_zero s)) ->
      average_ping_value r = Ok "N/A")
  /\ (forall x,
         average_ping r = Float x -> (forall s, x <> S754_zero s) ->
         average_ping_value r = Ok (format_2f x) /\ format_2f x <> "N/A")
  /\ (row_fill r = good_fill <-> status r = "Success")
  /\ (row_fill r = bad_fill <-> status r <> "Success")
  /\ (probe_fault e host = true ->
      row_fill r = bad_fill /\ average_ping_value r = Ok "N/A").
Proof.
  intros r.
  assert (Hfill : (row_fill r = good_fill <-> status r = "Success")
                  /\ (row_fill r = bad_fill <-> status r <> "Success")).
  { unfold row_fill.
    destruct (String.eqb_spec (status r) "Success"); split; split;
      try congruence; try discriminate; try contradiction. }
  assert (Hloss : (packet_loss_value r = "N/A" <-> probe_fault e host = true)
                  /\ (probe_fault e host = false ->
                      packet_loss_value r = format_1f (packet_loss r) ++ "%")).
  { subst r. unfold packet_loss_value.
    destruct (ping_host_inv e host)
      as [[Hf [reason ->]]|[Hf (cp & _ & _ & H)]]; rewrite Hf.
    - simpl. split; [tauto|discriminate].
    - apply success_result_inv in H.
      destruct H as (stats & ratio & _ & _ & _ & _ & _ & _ & _ & _ & ->).
      destruct (_ =? _); cbn [negb contains find_first strip_prefix Ascii.eqb];
        cbn; (split; [|reflexivity]); (split; [|discriminate]);
        intros Hna; exfalso; revert Hna; now apply not_na_with_suffix. }
  assert (Hzero : average_ping r = Int 0
                  \/ (exists s, average_ping r = Float (S754_zero s)) ->
                  average_ping_value r = Ok "N/A").
  { unfold average_ping_value. now intros [->|[s ->]]. }
  assert (Hother : forall x,
             average_ping r = Float x -> (forall s, x <> S754_zero s) ->
             average_ping_value r = Ok (format_2f x) /\ format_2f x <> "N/A").
  { intros x Hx Hnz. split; [|apply format_2f_not_na].
    unfold average_ping_value. rewrite Hx. cbn [truthy format_number_2f].
    destruct (float_truthy x) eqn:Ht; [reflexivity|].
    apply float_truthy_zero in Ht. destruct Ht as [s ->]. now destruct (Hnz s). }
  assert (Hsome : exists average, average_ping_value r = Ok average).
  { destruct (ping_host_average e host) as [Ha|[x Ha]]; fold r in Ha.
    - exists "N/A". auto.
    - destruct (float_truthy x) eqn:Ht.
      + exists (format_2f x). apply (Hother x Ha).
        intros s ->. destruct s; discriminate.
      + apply float_truthy_zero in Ht. destruct Ht as [s ->].
        exists "N/A". eauto. }
  destruct Hfill as [Hgood Hbad]. destruct Hloss as [Hna Hpct].
  repeat (split; [assumption|]).
  intros Hf. subst r.
  destruct (ping_host_inv e host) as [[_ [reason Hr]]|[Hf' _]]; [|congruence].
  rewrite Hr in *. split; [|now apply Hzero; left].
  apply Hbad. cbn. discriminate.
Qed.

Lemma report_values_of_result_witness :
  let down := exited 1 "" in
  let up := exited 0 ("received = 40," ++ newline ++ "time=12.5 ms") in
  packet_loss_value (ping_host down "a") = "N/A"
  /\ average_ping_value (ping_host down "a") = Ok "N/A"
  /\ row_fill (ping_host down "a") = bad_fill
  /\ packet_loss_value (ping_host up "b") = "0.0%"
  /\ average_ping_value (ping_host up "b") = Ok "12.50"
  /\ row_fill (ping_host up "b") = good_fill.
Proof.
  intros down up.
  destruct (report_values_of_result down "a") as (Hna & _ & _ & _ & _ & _ & _ & Hf).
  destruct (report_values_of_result up "b") as (_ & Hpct & _ & _ & Hx & Hg & _).
  split; [apply Hna; vm_compute; reflexivity|].
  destruct Hf as [Hb Ha]; [vm_compute; reflexivity|].
  split; [exact Ha|]. split; [exact Hb|].
  split; [rewrite Hpct by (vm_compute; reflexivity); vm_compute; reflexivity|].
  split; [|apply Hg; vm_compute; reflexivity].
  destruct (Hx (float_lit "12.5")) as [Hv _];
    [vm_compute; reflexivity|intros s; destruct s; discriminate|].
  rewrite Hv. vm_compute; reflexivity.
Defined.

(** ** The server files *)

Lemma rstrip_idempotent f s : rstrip f (rstrip f s) = rstrip f s.
Proof.
  induction s as [|c s IH]; [reflexivity|].
  cbn [rstrip]. destruct (rstrip f s) as [|a r] eqn:E.
  - destruct (f c) eqn:Hc; [reflexivity|]. cbn [rstrip]. now rewrite Hc.
  - cbn [rstrip]. cbn [rstrip] in IH. now rewrite IH.
Qed.

Lemma rstrip_head f c s a r : rstrip f (String c s) = String a r -> a = c.
Proof.
  cbn [rstrip]. destruct (rstrip f s); [destruct (f c)|]; congruence.
Qed.

Lemma drop_while_head f s c r : drop_while f s = String c r -> f c = false.
Proof.
  induction s as [|a s IH]; simpl; [discriminate|].
  destruct (f a) eqn:Ha; [exact IH|]. now intros [= <- _].
Qed.

Lemma strip_head l c r : strip l = String c r -> is_space c = false.
Proof.
  unfold strip. destruct (drop_while is_space l) as [|a d] eqn:E;
    [discriminate|].
  intros H. apply rstrip_head in H. subst c.
  now apply drop_while_head in E.
Qed.

Lemma strip_idempotent l : strip (strip l) = strip l.
Proof.
  destruct (strip l) as [|c r] eqn:E; [reflexivity|].
  pose proof (strip_head _ _ _ E) as Hc.
  unfold strip in *. cbn [drop_while]. rewrite Hc, <- E.
  apply rstrip_idempotent.
Qed.

Lemma rstrip_space_end f s c :
  f c = true -> rstrip f (s ++ String c "") = rstrip f s.
Proof.
  intros Hc. induction s as [|a s IH]; cbn [append rstrip].
  - now rewrite Hc.
  - now rewrite IH.
Qed.

Lemma drop_while_all f a b :
  all_chars f a = true -> drop_while f (a ++ b) = drop_while f b.
Proof.
  induction a as [|x a IH]; [reflexivity|].
  cbn [all_chars append drop_while]. intros H.
  apply andb_prop in H as [-> Ha]. now apply IH.
Qed.

Lemma drop_while_app f a b :
  all_chars f a = false -> drop_while f (a ++ b) = drop_while f a ++ b.
Proof.
  induction a as [|x a IH]; [discriminate|].
  cbn [all_chars append drop_while]. destruct (f x); [exact IH|reflexivity].
Qed.

Lemma drop_while_empty f s : drop_while f s = "" <-> all_chars f s = true.
Proof.
  induction s as [|c s IH]; [now split|].
  cbn [drop_while all_chars]. destruct (f c); [exact IH|].
  split; discriminate.
Qed.

Lemma rstrip_not_empty f c r : f c = false -> rstrip f (String c r) <> "".
Proof.
  intros Hc. cbn [rstrip]. destruct (rstrip f r); [rewrite Hc|]; discriminate.
Qed.

Lemma strip_empty s : strip s = "" <-> all_chars is_space s = true.
Proof.
  unfold strip. rewrite <- drop_while_empty.
  destruct (drop_while is_space s) as [|c r] eqn:E; [now split|].
  apply drop_while_head in E. split; [|discriminate].
  intros H. now apply rstrip_not_empty in H.
Qed.

Lemma strip_line_feed body : strip (body ++ newline) = strip body.
Proof.
  unfold strip. destruct (all_chars is_space body) eqn:E.
  - rewrite (drop_while_all _ _ _ E).
    apply drop_while_empty in E. now rewrite E.
  - rewrite (drop_while_app _ _ _ E). now apply rstrip_space_end.
Qed.

Lemma has_char_drop_while c f s :
  has_char c s = false -> has_char c (drop_while f s) = false.
Proof.
  induction s as [|a s IH]; [reflexivity|].
  cbn [drop_while]. destruct (f a); [|auto].
  cbn [has_char]. intros H. apply orb_false_iff in H as [_ H]. auto.
Qed.

Lemma has_char_rstrip c f s :
  has_char c s = false -> has_char c (rstrip f s) = false.
Proof.
  induction s as [|a s IH]; [reflexivity|].
  cbn [has_char rstrip]. intros H. apply orb_false_iff in H as [Ha Hs].
  specialize (IH Hs). destruct (rstrip f s) as [|x r].
  - destruct (f a); [reflexivity|]. cbn [has_char]. now rewrite Ha.
  - cbn [has_char] in *. now rewrite Ha, IH.
Qed.

Lemma has_char_strip c s : has_char c s = false -> has_char c (strip s) = false.
Proof. intros H. now apply has_char_rstrip, has_char_drop_while. Qed.

Lemma all_chars_app f a b :
  all_chars f (a ++ b) = (all_chars f a && all_chars f b)%bool.
Proof.
  induction a as [|x a IH]; [reflexivity|].
  cbn [append all_chars]. now rewrite IH, andb_assoc.
Qed.

(** Induction on a string, two characters at a time. *)
Lemma string_pair_ind (P : string -> Prop) :
  P "" ->
  (forall c, P (String c "")) ->
  (forall c c' s, P s -> P (String c' s) -> P (String c (String c' s))) ->
  forall s, P s.
Proof.
  intros H0 H1 H2 s.
  assert (H : P s /\ forall c, P (String c s)); [|exact (proj1 H)].
  induction s as [|a s [IHs IHc]]; [split; auto|].
  split; [apply IHc|]. intros c. apply H2; auto.
Qed.

Lemma universal_newlines_no_cr content :
  has_char CR (universal_newlines content) = false.
Proof.
  induction content as [|c|c c' s IH IH'] using string_pair_ind.
  - reflexivity.
  - cbn [universal_newlines]. destruct (Ascii.eqb c CR) eqn:E;
      cbn [has_char]; [reflexivity|now rewrite E].
  - change (universal_newlines (String c (String c' s)))
      with (if Ascii.eqb c CR
            then String LF (if Ascii.eqb c' LF then universal_newlines s
                            else universal_newlines (String c' s))
            else String c (universal_newlines (String c' s))).
    destruct (Ascii.eqb c CR) eqn:E; cbn [has_char].
    + destruct (Ascii.eqb c' LF); assumption.
    + now rewrite E, IH'.
Qed.

Lemma universal_newlines_space content :
  all_chars is_space (universal_newlines content) = all_chars is_space content.
Proof.
  induction content as [|c|c c' s IH IH'] using string_pair_ind.
  - reflexivity.
  - cbn [universal_newlines]. destruct (Ascii.eqb_spec c CR) as [->|];
      reflexivity.
  - change (universal_newlines (String c (String c' s)))
      with (if Ascii.eqb c CR
            then String LF (if Ascii.eqb c' LF then universal_newlines s
                            else universal_newlines (String c' s))
            else String c (universal_newlines (String c' s))).
    destruct (Ascii.eqb_spec c CR) as [->|].
    + destruct (Ascii.eqb_spec c' LF) as [->|].
      * cbn [all_chars]. now rewrite IH.
      * cbn [all_chars] in *. now rewrite IH'.
    + cbn [all_chars] in *. now rewrite IH'.
Qed.

Lemma universal_newlines_line h eol rest :
  has_char CR h = false ->
  eol = newline \/ eol = String CR newline
  \/ (eol = String CR "" /\ forall r, rest <> String LF r) ->
  universal_newlines (h ++ eol ++ rest)
  = h ++ newline ++ universal_newlines rest.
Proof.
  intros Hh Heol. induction h as [|a h IH].
  - destruct Heol as [->|[->|[-> Hr]]]; try reflexivity.
    cbn [append universal_newlines]. rewrite Ascii.eqb_refl.
    destruct rest as [|c' r]; [reflexivity|].
    destruct (Ascii.eqb_spec c' LF) as [->|]; [now destruct (Hr r)|reflexivity].
  - cbn [has_char] in Hh. apply orb_false_iff in Hh as [Ha Hh].
    cbn [append universal_newlines]. rewrite Ha. f_equal. now apply IH.
Qed.

Lemma lines_join text : fold_right append "" (lines text) = text.
Proof.
  induction text as [|c rest IH]; [reflexivity|].
  cbn [lines]. destruct (Ascii.eqb_spec c LF) as [->|].
  - cbn [fold_right]. now rewrite IH.
  - destruct (lines rest) as [|line more]; cbn [fold_right append] in *;
      now rewrite IH.
Qed.

Lemma lines_line_feed h rest :
  has_char LF h = false ->
  lines (h ++ newline ++ rest) = (h ++ newline) :: lines rest.
Proof.
  induction h as [|a h IH]; [reflexivity|].
  cbn [has_char]. intros H. apply orb_false_iff in H as [Ha Hh].
  cbn [append lines]. rewrite Ha. now rewrite (IH Hh).
Qed.

Lemma lines_last h :
  has_char LF h = false ->
  lines h = match h with EmptyString => [] | _ => [h] end.
Proof.
  induction h as [|a h IH]; [reflexivity|].
  cbn [has_char]. intros H. apply orb_false_iff in H as [Ha Hh].
  cbn [lines]. rewrite Ha, (IH Hh). now destruct h.
Qed.

(** A line is a run of characters other than the line feed, with a line
    feed after it unless it is the last one, and is not empty. *)
Lemma lines_shape text :
  Forall (fun line =>
            exists body,
              has_char LF body = false
              /\ (line = body ++ newline \/ (line = body /\ body <> "")))
         (lines text).
Proof.
  induction text as [|c rest IH]; [constructor|].
  cbn [lines]. destruct (Ascii.eqb c LF) eqn:E.
  - constructor; [|exact IH]. exists "". auto.
  - destruct (lines rest) as [|line more].
    + constructor; [|constructor]. exists (String c "").
      cbn [has_char]. rewrite E. split; [reflexivity|].
      right. split; [reflexivity|discriminate].
    + inversion IH as [|? ? (body & Hb & Hl) Hmore]; subst.
      constructor; [|exact Hmore]. exists (String c body).
      cbn [has_char]. rewrite E, Hb. split; [reflexivity|].
      destruct Hl as [->|[-> _]]; [now left|right].
      split; [reflexivity|discriminate].
Qed.

Lemma has_char_join c ls :
  has_char c (fold_right append "" ls) = existsb (has_char c) ls.
Proof.
  induction ls as [|l ls IH]; [reflexivity|].
  cbn [fold_right existsb]. now rewrite has_char_append, IH.
Qed.

Lemma all_chars_join f ls :
  all_chars f (fold_right append "" ls) = forallb (all_chars f) ls.
Proof.
  induction ls as [|l ls IH]; [reflexivity|].
  cbn [fold_right forallb]. now rewrite all_chars_app, IH.
Qed.

Lemma stripped_lines_empty ls :
  stripped_lines ls = [] <-> forallb (all_chars is_space) ls = true.
Proof.
  unfold stripped_lines. induction ls as [|l ls IH]; [now split|].
  cbn [filter forallb]. destruct (String.eqb_spec (strip l) "") as [He|Hne];
    cbn [negb map].
  - apply strip_empty in He. now rewrite He.
  - destruct (all_chars is_space l) eqn:E.
    + now apply strip_empty in E.
    + split; discriminate.
Qed.

Lemma stripped_lines_cons l ls :
  stripped_lines (l :: ls)
  = ((if String.eqb (strip l) "" then [] else [strip l])
     ++ stripped_lines ls)%list.
Proof.
  unfold stripped_lines. cbn [filter].
  now destruct (String.eqb (strip l) "").
Qed.

Lemma read_servers_empty content :
  read_servers content = [] <-> all_chars is_space content = true.
Proof.
  unfold read_servers, file_lines.
  now rewrite stripped_lines_empty, <- all_chars_join, lines_join,
    universal_newlines_space.
Qed.

Lemma not_line_feed_first h t r :
  has_char LF h = false -> h ++ String CR t <> String LF r.
Proof.
  destruct h as [|a h]; [discriminate|].
  cbn [has_char append]. intros H. apply orb_false_iff in H as [Ha _].
  intros [= -> _]. discriminate.
Qed.

(** The text of a file that holds the given lines, each one followed by the
    line end [eol], and then a last line without a line end. *)
Definition text_of_lines (eol : string) (hosts : list string) (last : string)
  : string :=
  fold_right (fun h text => h ++ eol ++ text) last hosts.

Definition without_line_end (h : string) : Prop :=
  has_char LF h = false /\ has_char CR h = false.

Lemma universal_newlines_plain h :
  has_char CR h = false -> universal_newlines h = h.
Proof.
  induction h as [|a h IH]; [reflexivity|].
  cbn [has_char]. intros H. apply orb_false_iff in H as [Ha Hh].
  cbn [universal_newlines]. rewrite Ha. f_equal. auto.
Qed.

Lemma text_of_lines_first hosts last r :
  Forall without_line_end (last :: hosts) ->
  text_of_lines (String CR "") hosts last <> String LF r.
Proof.
  intros H. inversion H as [|? ? [Hlf _] Hhosts]; subst.
  destruct Hhosts as [|h hs [Hh _] _]; cbn [text_of_lines fold_right].
  - destruct last; [discriminate|]. cbn [has_char] in Hlf.
    apply orb_false_iff in Hlf as [Ha _]. intros [= -> _]. discriminate.
  - now apply not_line_feed_first.
Qed.

Lemma read_servers_of_lines eol hosts last :
  In eol [newline; String CR newline; String CR ""] ->
  Forall without_line_end (last :: hosts) ->
  read_servers (text_of_lines eol hosts last)
  = filter (fun h => negb (String.eqb h "")) (map strip (hosts ++ [last])%list).
Proof.
  intros Heol H. inversion H as [|? ? Hlast Hhosts]; subst. clear H.
  induction Hhosts as [|h hs [Hh Hh'] Hhs IH]; cbn [text_of_lines fold_right].
  - destruct Hlast as [Hlf Hcr]. unfold read_servers, file_lines.
    rewrite (universal_newlines_plain _ Hcr), (lines_last _ Hlf).
    cbn [app map filter]. destruct last as [|a l]; [reflexivity|].
    rewrite stripped_lines_cons. cbn [stripped_lines map filter].
    rewrite app_nil_r. now destruct (String.eqb (strip (String a l)) "").
  - unfold read_servers, file_lines in *.
    fold (text_of_lines eol hs last) in *.
    rewrite (universal_newlines_line h eol _ Hh').
    + rewrite (lines_line_feed _ _ Hh), stripped_lines_cons, strip_line_feed.
      cbn [app map filter]. rewrite IH.
      now destruct (String.eqb (strip h) "").
    + destruct Heol as [<-|[<-|[<-|[]]]]; auto.
      right. right. split; [reflexivity|].
      intros r. apply text_of_lines_first. now constructor.
Qed.

(** X9: reading a server file.  A line of the file ends at a line feed, at a
    carriage return, or at a carriage return with the line feed after it,
    each read as one line feed; the lines read, put together, are the
    characters of the file with its line ends so translated.  Every server
    read is a line without the white space around it; it is not empty,
    neither starts nor ends with white space and holds no line end.  No
    server is read exactly when the file holds white space only.  From a
    file of lines that all end in the same one of the three line ends, the
    last line with or without it, the servers read are the lines without
    the white space around them, the empty ones left out, in the order of
    the file.  The file is valid exactly when it is there and holds a
    character that is not white space, not valid when it is not there or
    holds white space only, and the check raises exactly when the file
    cannot be read. *)
Theorem servers_are_stripped_lines (files : file_system) file_path content :
  fold_right append "" (file_lines content) = universal_newlines content
  /\ has_char CR (universal_newlines content) = false
  /\ Forall (fun h => h <> "" /\ strip h = h
                      /\ has_char LF h = false /\ has_char CR h = false
                      /\ exists line, In line (file_lines content)
                                      /\ h = strip line)
            (read_servers content)
  /\ (read_servers content = [] <-> all_chars is_space content = true)
  /\ (forall eol hosts last,
         In eol [newline; String CR newline; String CR ""] ->
         Forall without_line_end (last :: hosts) ->
         read_servers (text_of_lines eol hosts last)
         = filter (fun h => negb (String.eqb h "")) (map strip (hosts ++ [last])%list))
  /\ (validate_server_file files file_path = Ok true
      <-> exists c, files file_path = Holds c /\ all_chars is_space c = false)
  /\ (validate_server_file files file_path = Ok false
      <-> files file_path = Missing
          \/ exists c, files file_path = Holds c /\ all_chars is_space c = true)
  /\ (forall e, validate_server_file files file_path = Raise e
                <-> files file_path = Unreadable e).
Proof.
  split; [apply lines_join|]. split; [apply universal_newlines_no_cr|].
  split; [|split; [apply read_servers_empty|split; [apply read_servers_of_lines|]]].
  - unfold read_servers, stripped_lines. apply Forall_forall. intros h Hin.
    apply in_map_iff in Hin. destruct Hin as (line & <- & Hin).
    apply filter_In in Hin. destruct Hin as [Hin Hne].
    apply negb_true_iff, String.eqb_neq in Hne.
    split; [exact Hne|]. split; [apply strip_idempotent|].
    assert (Hcr : has_char CR line = false).
    { pose proof (universal_newlines_no_cr content) as H.
      rewrite <- (lines_join (universal_newlines content)), has_char_join in H.
      destruct (has_char CR line) eqn:E; [|reflexivity].
      rewrite <- H. symmetry. apply existsb_exists. eauto. }
    pose proof (lines_shape (universal_newlines content)) as Hshape.
    rewrite Forall_forall in Hshape.
    destruct (Hshape line Hin) as (body & Hb & Hl).
    split; [|split; [now apply has_char_strip|eauto]].
    destruct Hl as [->|[-> _]]; [rewrite strip_line_feed|];
      now apply has_char_strip.
  - unfold validate_server_file.
    destruct (files file_path) as [|e|c] eqn:E.
    + split; [|split].
      * split; [discriminate|]. intros (c & H & _). discriminate.
      * split; [now left|reflexivity].
      * intros e. split; discriminate.
    + split; [|split].
      * split; [discriminate|]. intros (c & H & _). discriminate.
      * split; [discriminate|]. intros [H|(c & H & _)]; discriminate.
      * intros e'. split; congruence.
    + pose proof (read_servers_empty c) as Hc.
      destruct (read_servers c) as [|h hs]; (split; [|split]).
      * split; [discriminate|]. intros (c' & [= <-] & H).
        rewrite (proj1 Hc eq_refl) in H. discriminate.
      * split; [|reflexivity]. intros _. right. exists c. now split; [|apply Hc].
      * intros e. split; discriminate.
      * split; [|reflexivity]. intros _. exists c. split; [reflexivity|].
        destruct (all_chars is_space c); [|reflexivity].
        discriminate (proj2 Hc eq_refl).
      * split; [discriminate|]. intros [H|(c' & [= <-] & H)]; [discriminate|].
        discriminate (proj2 Hc H).
      * intros e. split; discriminate.
Qed.

Lemma servers_are_stripped_lines_witness :
  let files := fun path =>
    if String.eqb path "servers/web.txt"
    then Holds ("alpha" ++ String CR newline ++ String CR newline
                ++ "  beta  " ++ String CR newline ++ "gamma")
    else Missing in
  read_servers (text_of_lines (String CR newline) ["alpha"; ""; "  beta  "] "gamma")
  = ["alpha"; "beta"; "gamma"]
  /\ read_servers (text_of_lines (String CR "") ["a"; "b"] "")
     = ["a"; "b"]
  /\ validate_server_file files "servers/web.txt" = Ok true
  /\ validate_server_file files "servers/none.txt" = Ok false.
Proof.
  intros files.
  destruct (servers_are_stripped_lines files "servers/web.txt" "")
    as (_ & _ & _ & _ & Hlines & Hvalid & _).
  destruct (servers_are_stripped_lines files "servers/none.txt" "")
    as (_ & _ & _ & _ & _ & _ & Hnone & _).
  split; [|split; [|split]].
  - rewrite Hlines; [reflexivity|cbn; auto|repeat constructor].
  - rewrite Hlines; [reflexivity|cbn; auto|repeat constructor].
  - apply Hvalid. eexists. split; reflexivity.
  - apply Hnone. now left.
Defined.

(** A carriage return alone ends a line. *)
Lemma lone_carriage_return_ends_line :
  read_servers ("a" ++ String CR "b" ++ newline) = ["a"; "b"].
Proof. reflexivity. Qed.

(** ** The report prefix of a file name *)

Lemma rpartition_none c s : has_char c s = false -> rpartition c s = None.
Proof.
  induction s as [|a s IH]; [reflexivity|].
  simpl. intros H. apply orb_false_iff in H as [Ha Hs].
  now rewrite (IH Hs), Ha.
Qed.

Lemma rpartition_last c before after :
  has_char c after = false ->
  rpartition c (before ++ String c after) = Some (before, after).
Proof.
  intros H. induction before as [|a before IH]; simpl.
  - now rewrite (rpartition_none _ _ H), Ascii.eqb_refl.
  - now rewrite IH.
Qed.

Lemma endswith_app suffix stem : endswith suffix (stem ++ suffix) = true.
Proof.
  induction stem as [|a stem IH].
  - destruct suffix; simpl; [reflexivity|].
    now rewrite Ascii.eqb_refl, String.eqb_refl.
  - cbn [append endswith]. now rewrite IH, orb_true_r.
Qed.

(** X10: a file [stem.txt] of the servers directory is processed, and its report
    prefix is [stem] when [stem] has a character other than a dot; when
    [stem] is empty or made of dots only the whole name, extension included,
    is the prefix. *)
Theorem report_prefix_of_txt stem :
  has_char "/" stem = false ->
  report_prefix (stem ++ ".txt")
  = Some (if all_dots stem then stem ++ ".txt" else stem).
Proof.
  intros Hs. unfold report_prefix, splitext.
  rewrite endswith_app.
  rewrite rpartition_none by (rewrite has_char_append, Hs; reflexivity).
  change (stem ++ ".txt") with (stem ++ String "." "txt").
  rewrite rpartition_last by reflexivity.
  now destruct (all_dots stem).
Qed.

Lemma report_prefix_of_txt_witness :
  report_prefix "web.servers.txt" = Some "web.servers"
  /\ report_prefix ".txt" = Some ".txt".
Proof.
  split.
  - exact (report_prefix_of_txt "web.servers" eq_refl).
  - exact (report_prefix_of_txt "" eq_refl).
Defined.
